(** * Soundify: the catalog store, the metadata resolver and the upload and
    deletion handlers of [app.py], as Rocq functions.

    Python values are embedded as the JSON-shaped type [pyval]; a Python
    [dict] is an association list in insertion order.  Code that reads or
    writes the disk threads an explicit [World]; code that can raise returns
    an [outcome].  Strings are sequences of characters ([ascii] stands for
    one character), so [len], [lower] and [startswith] are the ASCII ones. *)

From Stdlib Require Import String Ascii List ZArith Bool Arith Lia DecimalString.
Import ListNotations.
Open Scope string_scope.
Set Warnings "-register-all".

(** ** Python string methods used by the program *)

Module Str.

(** [s.startswith(p)] *)
Definition startswith (s p : string) : bool := String.prefix p s.

(** [c in s] for a one-character [c] *)
Fixpoint contains_char (c : ascii) (s : string) : bool :=
  match s with
  | EmptyString => false
  | String a r => Ascii.eqb a c || contains_char c r
  end.

(** [p in s] *)
Fixpoint contains (p s : string) : bool :=
  String.prefix p s ||
  match s with
  | EmptyString => false
  | String _ r => contains p r
  end.

(** [s.lstrip(c)] for a one-character [c] *)
Fixpoint lstrip (c : ascii) (s : string) : string :=
  match s with
  | EmptyString => EmptyString
  | String a r => if Ascii.eqb a c then lstrip c r else s
  end.

(** [s.split(c)[-1]]: the text after the last [c], all of [s] when [c] does
    not occur.  When [c] occurs this is also [s.rsplit(c, 1)[1]]. *)
Fixpoint after_last (c : ascii) (s : string) : string :=
  match s with
  | EmptyString => EmptyString
  | String a r =>
      if contains_char c r then after_last c r
      else if Ascii.eqb a c then r else s
  end.

(** [s.rsplit(c, 1)[0]] when [c] occurs in [s]: the text before the last [c] *)
Fixpoint before_last (c : ascii) (s : string) : string :=
  match s with
  | EmptyString => EmptyString
  | String a r =>
      if contains_char c r then String a (before_last c r)
      else EmptyString
  end.

(** [s.split(c)] *)
Fixpoint split (c : ascii) (s : string) : list string :=
  match s with
  | EmptyString => [EmptyString]
  | String a r =>
      if Ascii.eqb a c then EmptyString :: split c r
      else match split c r with
           | h :: t => String a h :: t
           | [] => [String a EmptyString]
           end
  end.

Definition lower_char (a : ascii) : ascii :=
  let n := nat_of_ascii a in
  if (Nat.leb 65 n && Nat.leb n 90)%bool then ascii_of_nat (n + 32) else a.

(** [s.lower()] *)
Fixpoint lower (s : string) : string :=
  match s with
  | EmptyString => EmptyString
  | String a r => String (lower_char a) (lower r)
  end.

(** [x in xs] for a set of strings *)
Definition mem (x : string) (xs : list string) : bool :=
  existsb (String.eqb x) xs.

(** [sep.join(parts)] with every part prefixed by [sep], as in the text of
    an absolute path *)
Fixpoint join_rooted (parts : list string) : string :=
  match parts with
  | [] => EmptyString
  | p :: r => "/" ++ p ++ join_rooted r
  end.

Definition is_space (a : ascii) : bool :=
  let n := nat_of_ascii a in
  (Nat.leb 9 n && Nat.leb n 13) || (Nat.leb 28 n && Nat.leb n 32).

Fixpoint lstrip_space (s : string) : string :=
  match s with
  | EmptyString => EmptyString
  | String a r => if is_space a then lstrip_space r else s
  end.

Fixpoint rstrip_space (s : string) : string :=
  match s with
  | EmptyString => EmptyString
  | String a r =>
      match rstrip_space r with
      | EmptyString => if is_space a then EmptyString else String a EmptyString
      | r' => String a r'
      end
  end.

(** [s.strip()] *)
Definition strip (s : string) : string := rstrip_space (lstrip_space s).

(** [str(n)] for a natural number *)
Definition of_nat (n : nat) : string := NilZero.string_of_uint (Nat.to_uint n).

End Str.

(** ** Python values *)

Inductive pyval : Type :=
| PNone
| PBool (b : bool)
| PInt (z : Z)
| PStr (s : string)
| PList (l : list pyval)
| PDict (d : list (string * pyval)).

(** A [dict] with string keys, in insertion order. *)
Definition dict := list (string * pyval).

Fixpoint dict_get (d : dict) (k : string) : option pyval :=
  match d with
  | [] => None
  | (k', v) :: r => if String.eqb k' k then Some v else dict_get r k
  end.

Definition dict_has (d : dict) (k : string) : bool :=
  match dict_get d k with Some _ => true | None => false end.

(** [d[k] = v]: an existing key keeps its place, a new one goes last. *)
Fixpoint dict_set (d : dict) (k : string) (v : pyval) : dict :=
  match d with
  | [] => [(k, v)]
  | (k', v') :: r =>
      if String.eqb k' k then (k', v) :: r else (k', v') :: dict_set r k v
  end.

(** [del d[k]] for a key that is present *)
Fixpoint dict_del (d : dict) (k : string) : dict :=
  match d with
  | [] => []
  | (k', v') :: r => if String.eqb k' k then r else (k', v') :: dict_del r k
  end.

Definition dict_keys (d : dict) : list string := map fst d.
Definition dict_values (d : dict) : list pyval := map snd d.

(** [bool(v)] *)
Definition truthy (v : pyval) : bool :=
  match v with
  | PNone => false
  | PBool b => b
  | PInt z => negb (Z.eqb z 0)
  | PStr s => negb (String.eqb s EmptyString)
  | PList l => match l with [] => false | _ => true end
  | PDict d => match d with [] => false | _ => true end
  end.

Definition is_dict (v : pyval) : bool :=
  match v with PDict _ => true | _ => false end.

(** ** Exceptions and results *)

Inductive exn : Type :=
| TypeError
| AttributeError
| KeyError
| UnicodeDecodeError.

Inductive outcome (A : Type) : Type :=
| Returns (a : A)
| Raises (e : exn).
Arguments Returns {A} a.
Arguments Raises {A} e.

Definition obind {A B : Type} (c : outcome A) (k : A -> outcome B) : outcome B :=
  match c with
  | Returns a => k a
  | Raises e => Raises e
  end.

Declare Scope outcome_scope.
Delimit Scope outcome_scope with out.
Notation "x <- c ;; k" := (obind c (fun x => k))
  (at level 61, c at next level, right associativity) : outcome_scope.

(** [k in x] *)
Definition py_contains (x : pyval) (k : string) : outcome bool :=
  match x with
  | PDict d => Returns (dict_has d k)
  | PList l =>
      Returns (existsb (fun v => match v with
                                 | PStr s => String.eqb s k
                                 | _ => false
                                 end) l)
  | PStr s => Returns (Str.contains k s)
  | _ => Raises TypeError
  end.

(** [x[k]] for a string [k] *)
Definition py_getitem (x : pyval) (k : string) : outcome pyval :=
  match x with
  | PDict d => match dict_get d k with
               | Some v => Returns v
               | None => Raises KeyError
               end
  | _ => Raises TypeError
  end.

(** [x[k] = v] for a string [k]; the result is the object after the store *)
Definition py_setitem (x : pyval) (k : string) (v : pyval) : outcome pyval :=
  match x with
  | PDict d => Returns (PDict (dict_set d k v))
  | _ => Raises TypeError
  end.

(** [x.get(k, default)] *)
Definition py_get (x : pyval) (k : string) (default : pyval) : outcome pyval :=
  match x with
  | PDict d => Returns match dict_get d k with
                       | Some v => v
                       | None => default
                       end
  | _ => Raises AttributeError
  end.

(** [x.items()] *)
Definition py_items (x : pyval) : outcome dict :=
  match x with
  | PDict d => Returns d
  | _ => Raises AttributeError
  end.

(** ** Paths *)

(** A path of the file system: the names from the root down. *)
Definition path := list string.

(** [pathlib.Path(s)]: whether it is rooted, and its parts.  Empty parts and
    [.] are dropped when the text is parsed; [..] is kept. *)
Record PyPath : Type := mkPath {
  rooted : bool;
  parts : list string
}.

Definition path_parts (s : string) : list string :=
  filter (fun c => negb (String.eqb c EmptyString || String.eqb c ".")) (Str.split "/" s).

Definition Path (s : string) : PyPath :=
  {| rooted := Str.startswith s "/"; parts := path_parts s |}.

(** [p / s] *)
Definition path_join (p : PyPath) (s : string) : PyPath :=
  if Str.startswith s "/" then Path s
  else {| rooted := rooted p; parts := parts p ++ path_parts s |}.

(** [Path(s).name] *)
Definition path_name (s : string) : string := last (path_parts s) EmptyString.

(** [Path(s).stem]: the name without its last suffix *)
Definition path_stem (s : string) : string :=
  let name := path_name s in
  let before := Str.before_last "." name in
  let after := Str.after_last "." name in
  if Str.contains_char "." name && negb (String.eqb before EmptyString)
     && negb (String.eqb after EmptyString)
  then before else name.

(** ** Configuration *)

Definition UPLOAD_FOLDER : string := "uploads".
Definition COVERS_FOLDER_NAME : string := "covers".
Definition COVERS_FOLDER : string := "uploads/covers".
Definition ALLOWED_EXTENSIONS : list string := ["mp3"].
Definition ALLOWED_COVER_EXTENSIONS : list string := ["png"; "jpg"; "jpeg"; "gif"].

Definition allowed_file (filename : string) : bool :=
  Str.contains_char "." filename &&
  Str.mem (Str.lower (Str.after_last "." filename)) ALLOWED_EXTENSIONS.

Definition allowed_cover_file (filename : string) : bool :=
  Str.contains_char "." filename &&
  Str.mem (Str.lower (Str.after_last "." filename)) ALLOWED_COVER_EXTENSIONS.

(** ** The world the program runs in *)

(** What reading [library.json] gives. *)
Inductive file_state : Type :=
| Absent                      (* [os.path.exists] is false *)
| Unreadable                  (* [open] or [read] raises [IOError] *)
| NotUtf8                     (* decoding raises [UnicodeDecodeError] *)
| NotJson                     (* [json.load] raises [JSONDecodeError] *)
| Holds (v : pyval).          (* [json.load] returns [v] *)

(** The disk and the sources of fresh data.  Media files live in [files],
    keyed by their absolute path without [.] or [..]; there are no symbolic
    links.  [library.json] is kept apart, as what [json.load] makes of it. *)
Record World : Type := mkWorld {
  library_file : file_state;
  library_writable : bool;             (* may [library.json] be opened for writing *)
  library_writes : nat;                (* how often [library.json] has been written *)
  cwd : path;                          (* the working directory *)
  dirs : list path;                    (* the directories that exist *)
  files : list (path * string);        (* the regular files and their bytes *)
  locked : list path;                  (* files the process may neither write nor remove *)
  uuid_count : nat                     (* identifiers drawn from [uuid.uuid4] so far *)
}.

(** [json.dump(v, f)] into [library.json], opened for writing *)
Definition write_library (w : World) (v : pyval) : World :=
  {| library_file := Holds v; library_writable := library_writable w;
     library_writes := S (library_writes w); cwd := cwd w;
     dirs := dirs w; files := files w; locked := locked w;
     uuid_count := uuid_count w |}.

Definition set_files (w : World) (fs : list (path * string)) : World :=
  {| library_file := library_file w; library_writable := library_writable w;
     library_writes := library_writes w;
     cwd := cwd w; dirs := dirs w; files := fs; locked := locked w;
     uuid_count := uuid_count w |}.

Definition bump_uuid (w : World) : World :=
  {| library_file := library_file w; library_writable := library_writable w;
     library_writes := library_writes w;
     cwd := cwd w; dirs := dirs w; files := files w; locked := locked w;
     uuid_count := S (uuid_count w) |}.

(** Code with effects: a result or an exception, and the world afterwards. *)
Definition M (A : Type) : Type := World -> outcome A * World.

Definition ret {A : Type} (a : A) : M A := fun w => (Returns a, w).
Definition raise {A : Type} (e : exn) : M A := fun w => (Raises e, w).
Definition lift {A : Type} (c : outcome A) : M A := fun w => (c, w).

Definition bind {A B : Type} (c : M A) (k : A -> M B) : M B :=
  fun w => match c w with
           | (Returns a, w') => k a w'
           | (Raises e, w') => (Raises e, w')
           end.

Declare Scope io_scope.
Delimit Scope io_scope with io.
Notation "x <- c ;; k" := (bind c (fun x => k))
  (at level 61, c at next level, right associativity) : io_scope.
Notation "' pat <- c ;; k" := (bind c (fun x => match x with pat => k end))
  (at level 61, pat pattern, c at next level, right associativity) : io_scope.

(** ** The file system *)

Fixpoint path_eqb (p q : path) : bool :=
  match p, q with
  | [], [] => true
  | a :: p', b :: q' => String.eqb a b && path_eqb p' q'
  | _, _ => false
  end.

Definition is_dir (w : World) (p : path) : bool :=
  match p with
  | [] => true
  | _ => existsb (path_eqb p) (dirs w)
  end.

Definition is_regular (w : World) (p : path) : bool :=
  existsb (fun f => path_eqb p (fst f)) (files w).

(** One name of a path, followed lexically. *)
Definition step (cur : path) (c : string) : path :=
  if String.eqb c ".." then removelast cur else (cur ++ [c])%list.

(** Where the operating system finds a path: every name but the last must
    lead through an existing directory. *)
Fixpoint walk (w : World) (cur : path) (cs : list string) : option path :=
  match cs with
  | [] => Some cur
  | c :: rest => if is_dir w cur then walk w (step cur c) rest else None
  end.

Definition start_of (w : World) (p : PyPath) : path :=
  if rooted p then [] else cwd w.

Definition locate (w : World) (p : PyPath) : option path :=
  walk w (start_of w p) (parts p).

(** [p.exists()] *)
Definition path_exists (w : World) (p : PyPath) : bool :=
  match locate w p with
  | Some q => is_regular w q || is_dir w q
  | None => false
  end.

(** [p.is_file()] *)
Definition path_is_file (w : World) (p : PyPath) : bool :=
  match locate w p with
  | Some q => is_regular w q
  | None => false
  end.

(** [p.resolve()]: the absolute path with [..] folded away (there are no
    symbolic links to follow) *)
Definition resolve (w : World) (p : PyPath) : path :=
  fold_left step (parts p) (start_of w p).

(** [p] is [root] or lies below it, name by name. *)
Fixpoint within (root p : path) : bool :=
  match root, p with
  | [], _ => true
  | r :: root', a :: p' => String.eqb r a && within root' p'
  | _ :: _, [] => false
  end.

(** [str(p)] for an absolute path *)
Definition path_text (p : path) : string :=
  match p with
  | [] => "/"
  | _ => Str.join_rooted p
  end.

Definition drop_file (q : path) (fs : list (path * string)) : list (path * string) :=
  filter (fun f => negb (path_eqb q (fst f))) fs.

(** [os.remove(p)] for a path that is a regular file: [None] stands for an
    [OSError]. *)
Definition os_remove (w : World) (p : PyPath) : option World :=
  match locate w p with
  | Some q =>
      if is_regular w q && negb (existsb (path_eqb q) (locked w))
      then Some (set_files w (drop_file q (files w)))
      else None
  | None => None
  end.

(** Writing [bytes] to [p] (created or truncated): [None] stands for an
    [IOError]. *)
Definition write_file (w : World) (p : PyPath) (bytes : string) : option World :=
  match locate w p with
  | Some q =>
      if is_dir w (removelast q) && negb (is_dir w q)
         && negb (existsb (path_eqb q) (locked w))
      then Some (set_files w ((q, bytes) :: drop_file q (files w)))
      else None
  | None => None
  end.

(** The bytes of the regular file at [p] *)
Definition read_file (w : World) (p : PyPath) : option string :=
  match locate w p with
  | Some q => match find (fun f => path_eqb q (fst f)) (files w) with
              | Some f => Some (snd f)
              | None => None
              end
  | None => None
  end.

(** ** Uploaded files and the tag reader *)

(** A part of a multipart request ([werkzeug]'s [FileStorage]). *)
Record FileStorage : Type := mkFileStorage {
  fs_filename : string;
  fs_bytes : string
}.

(** What [EasyID3(path)] gives: an [ID3NoHeaderError], another exception,
    or the text tags, each a list of strings. *)
Inductive easy_result : Type :=
| EasyNoHeader
| EasyError
| EasyTags (tags : list (string * list string)).

(** A frame of the full tag set; [mime] and [data] are those of a picture
    frame (the code reads them only under a name that starts with APIC). *)
Record frame : Type := mkFrame {
  mime : string;
  data : string
}.

(** What [MP3(path, ID3=ID3)] gives: an exception, or the frames by name in
    the order of the tag (none when the file has no tag). *)
Inductive mp3_result : Type :=
| Mp3Error
| Mp3Tags (tags : list (string * frame)).

(** The record [get_song_metadata] builds. *)
Record metadata : Type := mkMetadata {
  md_id : string;
  md_filename : string;
  md_title : string;
  md_artist : string;
  md_album : string;
  md_genre : string;
  md_audioSrc : string;
  md_coverSrc : option string
}.

Definition with_title (m : metadata) (x : string) : metadata :=
  mkMetadata (md_id m) (md_filename m) x (md_artist m) (md_album m)
             (md_genre m) (md_audioSrc m) (md_coverSrc m).
Definition with_artist (m : metadata) (x : string) : metadata :=
  mkMetadata (md_id m) (md_filename m) (md_title m) x (md_album m)
             (md_genre m) (md_audioSrc m) (md_coverSrc m).
Definition with_album (m : metadata) (x : string) : metadata :=
  mkMetadata (md_id m) (md_filename m) (md_title m) (md_artist m) x
             (md_genre m) (md_audioSrc m) (md_coverSrc m).
Definition with_genre (m : metadata) (x : string) : metadata :=
  mkMetadata (md_id m) (md_filename m) (md_title m) (md_artist m) (md_album m)
             x (md_audioSrc m) (md_coverSrc m).
Definition with_coverSrc (m : metadata) (x : option string) : metadata :=
  mkMetadata (md_id m) (md_filename m) (md_title m) (md_artist m) (md_album m)
             (md_genre m) (md_audioSrc m) x.

(** The record as the dict the program holds, keys in the order of the
    literal. *)
Definition metadata_dict (m : metadata) : dict :=
  [("id", PStr (md_id m)); ("filename", PStr (md_filename m));
   ("title", PStr (md_title m)); ("artist", PStr (md_artist m));
   ("album", PStr (md_album m)); ("genre", PStr (md_genre m));
   ("audioSrc", PStr (md_audioSrc m));
   ("coverSrc", match md_coverSrc m with Some c => PStr c | None => PNone end)].

(** A multipart request to [/upload]. *)
Record Request : Type := mkRequest {
  req_file : option FileStorage;         (* [request.files['file']] *)
  req_artistName : option string;        (* [request.form['artistName']] *)
  req_coverFile : option FileStorage     (* [request.files['coverFile']] *)
}.

(** What a handler answers: the JSON body and the status. *)
Definition response : Type := pyval * nat.

(** Why the processing of an upload was abandoned. *)
Inductive upload_failure : Type :=
| AudioNotSaved                 (* [mp3_file.save] raised *)
| Uncaught (e : exn)            (* [load_library] or [save_library] raised *)
| LibraryNotSaved.              (* [save_library] returned [False] *)

Section Soundify.

(** [str(uuid.uuid4())]: the [n]-th identifier the generator hands out. *)
Variable uuid4 : nat -> string.

(** [str(v)] for a list or a dict [v]. *)
Variable container_repr : pyval -> string.

(** [f'{v}'] *)
Definition py_str (v : pyval) : string :=
  match v with
  | PStr s => s
  | PNone => "None"
  | PBool true => "True"
  | PBool false => "False"
  | PInt z => NilZero.string_of_int (Z.to_int z)
  | _ => container_repr v
  end.

Definition fresh_uuid : M string :=
  fun w => (Returns (uuid4 (uuid_count w)), bump_uuid w).

(** ** Catalog store *)

Definition empty_library : pyval := PDict [("songs", PDict [])].

(** The key under which [corrected_songs[song_data['id']]] files a record:
    a list or a dict cannot be hashed; [json.dump] writes any other key as
    its JSON text. *)
Definition hash_key (v : pyval) : outcome string :=
  match v with
  | PStr s => Returns s
  | PNone => Returns "null"
  | PBool true => Returns "true"
  | PBool false => Returns "false"
  | PInt z => Returns (NilZero.string_of_int (Z.to_int z))
  | PList _ | PDict _ => Raises TypeError
  end.

(** The loop of [save_library]: records are filed under their own [id];
    an entry that is no dict or has no [id] is skipped. *)
Fixpoint save_loop (items : dict) (corrected_songs : dict) : outcome dict :=
  match items with
  | [] => Returns corrected_songs
  | (key, song_data) :: rest =>
      match song_data with
      | PDict sd =>
          match dict_get sd "id" with
          | Some id =>
              (k <- hash_key id ;;
               save_loop rest (dict_set corrected_songs k song_data))%out
          | None => save_loop rest corrected_songs
          end
      | _ => save_loop rest corrected_songs
      end
  end.

(** [save_library] up to the point where the file is opened.  It returns the
    value to be written and the caller's object as the call leaves it: the
    caller's [songs] is replaced unless the structure had to be corrected,
    in which case [library_data] is bound to a new dict. *)
Definition save_prepare (library_data : pyval) : outcome (pyval * pyval) :=
  (has <- py_contains library_data "songs" ;;
   ok <- (if has then v <- py_getitem library_data "songs" ;; Returns (is_dict v)
          else Returns false) ;;
   local <- (if ok then Returns library_data
             else songs <- py_get library_data "songs" (PDict []) ;;
                  Returns (PDict [("songs", songs)])) ;;
   songs <- py_get local "songs" (PDict []) ;;
   items <- py_items songs ;;
   corrected_songs <- save_loop items [] ;;
   local' <- py_setitem local "songs" (PDict corrected_songs) ;;
   Returns (local', if ok then local' else library_data))%out.

(** [save_library(library_data)]: the boolean it returns and the caller's
    object afterwards.  [IOError] and [TypeError] are caught and reported as
    [False]; any other exception leaves the function. *)
Definition save_library (library_data : pyval) : M (bool * pyval) :=
  fun w =>
    match save_prepare library_data with
    | Raises TypeError => (Returns (false, library_data), w)
    | Raises e => (Raises e, w)
    | Returns (to_write, callers) =>
        if library_writable w
        then (Returns (true, callers), write_library w to_write)
        else (Returns (false, callers), w)
    end.

(** [isinstance(song_id, str) and len(song_id) >= 10] *)
Definition usable_id (v : pyval) : option string :=
  match v with
  | PStr s => if Nat.leb 10 (String.length s) then Some s else None
  | _ => None
  end.

(** One record of the loop of [load_library]: the identifier it ends up
    under, the record after normalization, and whether anything changed. *)
Definition normalize_record (key : string) (song_data : pyval)
    (needs_save : bool) : M (string * dict * bool) :=
  (sd <- lift (py_items song_data) ;;      (* [song_data.get] needs a dict *)
   let song_id0 := match dict_get sd "id" with Some v => v | None => PStr key end in
   '(song_id, needs_save) <-
      match usable_id song_id0 with
      | Some s => ret (s, needs_save)
      | None => u <- fresh_uuid ;; ret (u, true)
      end ;;
   let '(sd, needs_save) :=
      match dict_get sd "id" with
      | Some (PStr s) =>
          if String.eqb s song_id then (sd, needs_save)
          else (dict_set sd "id" (PStr song_id), true)
      | _ => (dict_set sd "id" (PStr song_id), true)
      end in
   let '(sd, needs_save) :=
      match dict_get sd "audioSrc", dict_get sd "filename" with
      | None, Some filename =>
          (dict_set sd "audioSrc" (PStr ("/uploads/" ++ py_str filename)), true)
      | _, _ => (sd, needs_save)
      end in
   '(sd, needs_save) <-
      match dict_get sd "coverSrc" with
      | Some v =>
          if truthy v then
            match v with
            | PStr s =>
                if Str.startswith s "/" then ret (sd, needs_save)
                else ret (dict_set sd "coverSrc"
                            (PStr ("/" ++ COVERS_FOLDER_NAME ++ "/" ++ path_name s)),
                          true)
            | _ => raise AttributeError      (* no [startswith] *)
            end
          else ret (sd, needs_save)
      | None => ret (sd, needs_save)
      end ;;
   ret (song_id, sd, needs_save))%io.

Fixpoint load_loop (items : dict) (needs_save : bool) (updated_songs : dict)
    : M (bool * dict) :=
  match items with
  | [] => ret (needs_save, updated_songs)
  | (key, song_data) :: rest =>
      ('(song_id, sd, needs_save) <- normalize_record key song_data needs_save ;;
       load_loop rest needs_save (dict_set updated_songs song_id (PDict sd)))%io
  end.

(** The body of the [with open(...)] block, on the value [json.load] gave.
    None of the exceptions it can raise is a [JSONDecodeError] or an
    [IOError], so none is caught. *)
Definition load_parsed (data : pyval) : M pyval :=
  (has <- lift (py_contains data "songs") ;;
   ok <- (if has then v <- lift (py_getitem data "songs") ;; ret (is_dict v)
          else ret false) ;;
   data <- (if ok then ret data else lift (py_setitem data "songs" (PDict []))) ;;
   songs <- lift (py_get data "songs" (PDict [])) ;;
   items <- lift (py_items songs) ;;
   '(needs_save, updated_songs) <- load_loop items false [] ;;
   data <- lift (py_setitem data "songs" (PDict updated_songs)) ;;
   if needs_save then
     '(_, data) <- save_library data ;; ret data
   else ret data)%io.

Definition load_library : M pyval :=
  fun w =>
    match library_file w with
    | Absent => (Returns empty_library, w)
    | Unreadable => (Returns empty_library, w)
    | NotJson => (Returns empty_library, w)
    | NotUtf8 => (Raises UnicodeDecodeError, w)
    | Holds data => load_parsed data w
    end.

(** ** Metadata resolver *)

(** Is [mutagen] installed, and what it reads from the bytes of a file. *)
Variable MUTAGEN_AVAILABLE : bool.
Variable EasyID3 : string -> easy_result.
Variable MP3 : string -> mp3_result.

(** [x if x else None] for an optional string *)
Definition given (x : option string) : option string :=
  match x with
  | Some s => if String.eqb s EmptyString then None else Some s
  | None => None
  end.

(** [manual_artist if manual_artist else other] *)
Definition manual_or (manual_artist : option string) (other : string) : string :=
  match given manual_artist with
  | Some a => a
  | None => other
  end.

(** [tags.get(key, [default])[0]]; [None] stands for the [IndexError] of an
    empty list. *)
Definition tag_first (tags : list (string * list string)) (key default : string)
    : option string :=
  match find (fun kv => String.eqb (fst kv) key) tags with
  | None => Some default
  | Some (_, []) => None
  | Some (_, x :: _) => Some x
  end.

(** Both [except] branches of the basic read. *)
Definition basic_read_failed (manual_artist : option string) (m : metadata)
    : metadata :=
  match given manual_artist with
  | Some a => with_artist m a
  | None => m
  end.

(** The first [try] block: title, artist, album and genre, each assigned
    before the next is read. *)
Definition read_basic (r : easy_result) (manual_artist : option string)
    (m : metadata) : metadata :=
  match r with
  | EasyNoHeader | EasyError => basic_read_failed manual_artist m
  | EasyTags audio_easy =>
      match tag_first audio_easy "title" (md_title m) with
      | None => basic_read_failed manual_artist m
      | Some title =>
          let m := with_title m title in
          match match given manual_artist with
                | Some a => Some a
                | None => tag_first audio_easy "artist" (md_artist m)
                end with
          | None => basic_read_failed manual_artist m
          | Some artist =>
              let m := with_artist m artist in
              match tag_first audio_easy "album" (md_album m) with
              | None => basic_read_failed manual_artist m
              | Some album =>
                  let m := with_album m album in
                  match tag_first audio_easy "genre" (md_genre m) with
                  | None => basic_read_failed manual_artist m
                  | Some genre => with_genre m genre
                  end
              end
          end
      end
  end.

(** The extension a picture frame is filed under. *)
Definition apic_ext (f : frame) : string :=
  let ext := Str.lower (Str.after_last "/" (mime f)) in
  if String.eqb ext "jpeg" then "jpg" else ext.

(** The loop over [audio_full.tags]: the [coverSrc] it sets, if any. *)
Fixpoint scan_tags (tags : list (string * frame)) (song_id : string) (w : World)
    : option string * World :=
  match tags with
  | [] => (None, w)
  | (tag_name, apic_tag) :: rest =>
      if Str.startswith tag_name "APIC" then
        let ext := apic_ext apic_tag in
        if Str.mem ext ALLOWED_COVER_EXTENSIONS then
          let cover_filename := song_id ++ "." ++ ext in
          let cover_save_path := path_join (Path COVERS_FOLDER) cover_filename in
          match write_file w cover_save_path (data apic_tag) with
          | Some w' =>
              (Some ("/" ++ COVERS_FOLDER_NAME ++ "/" ++ cover_filename), w')
          | None => (None, w)               (* [IOError]: [break] *)
          end
        else scan_tags rest song_id w       (* "Skipping ...": next tag *)
      else scan_tags rest song_id w
  end.

(** The first [try] block of [get_song_metadata]: an uploaded cover with an
    allowed extension is stored as [<song_id>.<ext>]; the record, the flag
    [cover_saved] and the world afterwards. *)
Definition save_uploaded_cover (song_id : string)
    (uploaded_cover_file : option FileStorage) (m : metadata) (w : World)
    : metadata * bool * World :=
  match uploaded_cover_file with
  | Some f =>
      if negb (String.eqb (fs_filename f) EmptyString)
         && allowed_cover_file (fs_filename f)
      then
        let cover_ext := Str.lower (Str.after_last "." (fs_filename f)) in
        let cover_filename := song_id ++ "." ++ cover_ext in
        let cover_save_path := path_join (Path COVERS_FOLDER) cover_filename in
        match write_file w cover_save_path (fs_bytes f) with
        | Some w' =>
            (with_coverSrc m
               (Some ("/" ++ COVERS_FOLDER_NAME ++ "/" ++ cover_filename)),
             true, w')
        | None => (m, false, w)
        end
      else (m, false, w)
  | None => (m, false, w)
  end.

(** The dict literal [get_song_metadata] starts from. *)
Definition seed_metadata (mp3_filepath_str song_id : string) : metadata :=
  {| md_id := song_id;
     md_filename := mp3_filepath_str;
     md_title := path_stem mp3_filepath_str;
     md_artist := "Unknown Artist";
     md_album := "Unknown Album";
     md_genre := "Unknown Genre";
     md_audioSrc := "/uploads/" ++ mp3_filepath_str;
     md_coverSrc := None |}.

(** [EasyID3(p)] and [MP3(p, ID3=ID3)] on the file at [p]; a file that
    cannot be read makes both raise. *)
Definition open_easy (w : World) (p : PyPath) : easy_result :=
  match read_file w p with
  | Some bytes => EasyID3 bytes
  | None => EasyError
  end.

Definition open_mp3 (w : World) (p : PyPath) : mp3_result :=
  match read_file w p with
  | Some bytes => MP3 bytes
  | None => Mp3Error
  end.

Definition get_song_metadata (mp3_filepath_str song_id : string)
    (manual_artist : option string) (uploaded_cover_file : option FileStorage)
    (w : World) : metadata * World :=
  let server_mp3_path := path_join (Path UPLOAD_FOLDER) mp3_filepath_str in
  let m := seed_metadata mp3_filepath_str song_id in
  let '(m, cover_saved, w) :=
    save_uploaded_cover song_id uploaded_cover_file m w in
  let '(m, w) :=
    if MUTAGEN_AVAILABLE && path_is_file w server_mp3_path then
      let m := read_basic (open_easy w server_mp3_path) manual_artist m in
      if negb cover_saved then
        match open_mp3 w server_mp3_path with
        | Mp3Tags tags =>
            match scan_tags tags song_id w with
            | (Some c, w') => (with_coverSrc m (Some c), w')
            | (None, w') => (m, w')
            end
        | Mp3Error => (m, w)
        end
      else (m, w)
    else if negb MUTAGEN_AVAILABLE then
      (with_artist m (manual_or manual_artist "N/A (mutagen not installed)"), w)
    else
      (with_artist m (manual_or manual_artist "N/A (File missing?)"), w) in
  let m :=
    if String.eqb (md_artist m) EmptyString || String.eqb (md_artist m) "Unknown Artist"
    then with_artist m (manual_or manual_artist "Unknown Artist")
    else m in
  (m, w).

(** ** Upload handler *)

(** [werkzeug.utils.secure_filename], and [str(e)] for the exception that
    ended the processing of an upload. *)
Variable secure_filename : string -> string.
Variable error_text : upload_failure -> string.

Definition error_body (msg : string) : pyval := PDict [("error", PStr msg)].

(** [os.path.splitext]: the extension starts at the last dot of the last
    name, unless only dots come before it. *)
Definition splitext (p : string) : string * string :=
  let dir := if Str.contains_char "/" p
             then Str.before_last "/" p ++ "/" else EmptyString in
  let name := Str.after_last "/" p in
  let stem := Str.before_last "." name in
  if Str.contains_char "." name
     && negb (String.eqb (Str.lstrip "." stem) EmptyString)
  then (dir ++ stem, "." ++ Str.after_last "." name)
  else (p, EmptyString).

(** The [while save_path.exists()] loop, bounded by [fuel] rounds; [None]
    when a free name was not reached within them. *)
Fixpoint unique_name (fuel : nat) (w : World) (base ext filename : string)
    (counter : nat) : option string :=
  if path_exists w (path_join (Path UPLOAD_FOLDER) filename) then
    match fuel with
    | O => None
    | S fuel' =>
        unique_name fuel' w base ext
          (base ++ "_" ++ Str.of_nat counter ++ ext) (S counter)
    end
  else Some filename.

(** The [except Exception] branch: remove the audio file and the cover
    written for this upload, answer 500. *)
Definition rollback (cause : upload_failure) (save_path : PyPath)
    (metadata : option metadata) (w : World) : outcome response * World :=
  let w :=
    if path_exists w save_path then
      match os_remove w save_path with
      | Some w' => w'
      | None => w
      end
    else w in
  let w :=
    match metadata with
    | Some m =>
        match given (md_coverSrc m) with
        | Some c =>
            let cover_path_rel := Str.lstrip "/" c in
            if Str.startswith cover_path_rel (COVERS_FOLDER_NAME ++ "/") then
              let cover_path_abs := path_join (Path UPLOAD_FOLDER) cover_path_rel in
              if path_exists w cover_path_abs && path_is_file w cover_path_abs
              then match os_remove w cover_path_abs with
                   | Some w' => w'
                   | None => w
                   end
              else w
            else w
        | None => w
        end
    | None => w
    end in
  (Returns (error_body ("Failed to process file: " ++ error_text cause), 500), w).

(** Everything after the validation of the request.  [None]: the search
    for a free file name did not end within its bound. *)
Definition process_upload (mp3_file : FileStorage) (manual_artist_name : string)
    (cover_file : option FileStorage) (w : World)
    : option (outcome response * World) :=
  let filename := secure_filename (fs_filename mp3_file) in
  let '(base, ext) := splitext filename in
  match unique_name (S (length (files w) + length (dirs w))) w base ext filename 1 with
  | None => None
  | Some filename =>
      let save_path := path_join (Path UPLOAD_FOLDER) filename in
      Some
        match write_file w save_path (fs_bytes mp3_file) with
        | None => rollback AudioNotSaved save_path None w
        | Some w =>
            let song_id := uuid4 (uuid_count w) in
            let w := bump_uuid w in
            let '(metadata, w) :=
              get_song_metadata filename song_id
                (given (Some manual_artist_name)) cover_file w in
            match load_library w with
            | (Raises e, w) => rollback (Uncaught e) save_path (Some metadata) w
            | (Returns library_data, w) =>
                match (songs <- py_getitem library_data "songs" ;;
                       songs <- py_setitem songs song_id
                                  (PDict (metadata_dict metadata)) ;;
                       py_setitem library_data "songs" songs)%out with
                | Raises e => rollback (Uncaught e) save_path (Some metadata) w
                | Returns library_data =>
                    match save_library library_data w with
                    | (Returns (true, _), w) =>
                        (Returns
                           (PDict [("success", PBool true);
                                   ("message",
                                    PStr ("File '" ++ filename ++ "' uploaded."));
                                   ("song", PDict (metadata_dict metadata))],
                            201), w)
                    | (Returns (false, _), w) =>
                        rollback LibraryNotSaved save_path (Some metadata) w
                    | (Raises e, w) =>
                        rollback (Uncaught e) save_path (Some metadata) w
                    end
                end
            end
        end
  end.

(** [', '.join(ALLOWED_COVER_EXTENSIONS)], in the order of the list here *)
Definition cover_extensions_text : string := "png, jpg, jpeg, gif".

Definition upload_file (req : Request) (w : World)
    : option (outcome response * World) :=
  match req_file req with
  | None => Some (Returns (error_body "No MP3 file part", 400), w)
  | Some mp3_file =>
      let manual_artist_name :=
        Str.strip (match req_artistName req with Some a => a | None => EmptyString end) in
      let cover_file := req_coverFile req in
      if String.eqb (fs_filename mp3_file) EmptyString then
        Some (Returns (error_body "No selected MP3 file", 400), w)
      else if negb (allowed_file (fs_filename mp3_file)) then
        Some (Returns
                (error_body ("MP3 file type not allowed for '"
                             ++ fs_filename mp3_file ++ "'"), 400), w)
      else
        match cover_file with
        | Some c =>
            if negb (String.eqb (fs_filename c) EmptyString)
               && negb (allowed_cover_file (fs_filename c))
            then
              Some (Returns
                      (error_body ("Cover file type not allowed for '"
                                   ++ fs_filename c ++ "'. Use "
                                   ++ cover_extensions_text ++ "."), 400), w)
            else process_upload mp3_file manual_artist_name cover_file w
        | None => process_upload mp3_file manual_artist_name cover_file w
        end
  end.

(** ** Deletion handler *)

(** The audio slot: the value of [audio_file_deleted]. *)
Definition delete_audio (filename : pyval) : M bool :=
  if truthy filename then
    match filename with
    | PStr f =>
        let audio_path := path_join (Path UPLOAD_FOLDER) f in
        fun w =>
          if path_exists w audio_path && path_is_file w audio_path then
            if Str.startswith (path_text (resolve w audio_path))
                 (path_text (resolve w (Path UPLOAD_FOLDER)))
            then match os_remove w audio_path with
                 | Some w' => (Returns true, w')
                 | None => (Returns false, w)          (* [OSError] *)
                 end
            else (Returns false, w)                    (* "Security risk" *)
          else (Returns true, w)
    | _ => raise TypeError                             (* [Path / filename] *)
    end
  else ret true.

(** The cover slot: the value of [cover_file_deleted]. *)
Definition delete_cover (cover_src : pyval) : M bool :=
  if truthy cover_src then
    match cover_src with
    | PStr c =>
        let cover_path_rel := Str.lstrip "/" c in
        if Str.startswith cover_path_rel (COVERS_FOLDER_NAME ++ "/") then
          let cover_path_abs := path_join (Path UPLOAD_FOLDER) cover_path_rel in
          fun w =>
            if path_exists w cover_path_abs && path_is_file w cover_path_abs then
              if Str.startswith (path_text (resolve w cover_path_abs))
                   (path_text (resolve w (Path COVERS_FOLDER)))
              then match os_remove w cover_path_abs with
                   | Some w' => (Returns true, w')
                   | None => (Returns false, w)
                   end
              else (Returns false, w)
            else (Returns true, w)
        else ret true                                  (* "Invalid coverSrc" *)
    | _ => raise AttributeError                        (* no [lstrip] *)
    end
  else ret true.

Definition deletion_error (audio_file_deleted cover_file_deleted : bool) : string :=
  if negb audio_file_deleted && negb cover_file_deleted
  then "Failed to delete both audio and cover files."
  else if negb audio_file_deleted then "Failed to delete audio file."
  else if negb cover_file_deleted then "Failed to delete cover file."
  else "Failed to delete associated files. Library not modified.".

Definition delete_song (song_id : string) : M response :=
  (library_data <- load_library ;;
   songs <- lift (py_get library_data "songs" (PDict [])) ;;
   found <- lift (py_contains songs song_id) ;;
   if negb found then ret (error_body "Song not found", 404)
   else
     songs <- lift (py_getitem library_data "songs") ;;
     song_info <- lift (py_getitem songs song_id) ;;
     filename <- lift (py_get song_info "filename" PNone) ;;
     cover_src <- lift (py_get song_info "coverSrc" PNone) ;;
     audio_file_deleted <- delete_audio filename ;;
     cover_file_deleted <- delete_cover cover_src ;;
     if audio_file_deleted && cover_file_deleted then
       songs_dict <- lift (py_items songs) ;;
       library_data <- lift (py_setitem library_data "songs"
                               (PDict (dict_del songs_dict song_id))) ;;
       title <- lift (py_get song_info "title" (PStr song_id)) ;;
       '(saved, _) <- save_library library_data ;;
       if (saved : bool) then
         ret (PDict [("success", PBool true);
                     ("message", PStr ("Song '" ++ py_str title ++ "' deleted."))],
              200)
       else
         ret (error_body "Files deleted, but failed to update library metadata. Please check manually.", 500)
     else
       ret (error_body (deletion_error audio_file_deleted cover_file_deleted), 500))%io.

End Soundify.

(** ** Normalized catalogs *)

(** A [coverSrc] that [load_library] leaves alone: missing, falsy ([null],
    the empty string), or a string that starts with a slash. *)
Definition cover_settled (v : option pyval) : bool :=
  match v with
  | None => true
  | Some c =>
      if truthy c then
        match c with
        | PStr s => Str.startswith s "/"
        | _ => false
        end
      else true
  end.

(** A record filed under [key] that needs no normalization: its [id] is
    [key], a string of at least ten characters; it has an [audioSrc]; its
    [coverSrc] is settled. *)
Definition normalized_record (key : string) (v : pyval) : bool :=
  match v with
  | PDict sd =>
      match dict_get sd "id" with
      | Some (PStr s) => String.eqb s key && Nat.leb 10 (String.length s)
      | _ => false
      end
      && dict_has sd "audioSrc"
      && cover_settled (dict_get sd "coverSrc")
  | _ => false
  end.

Definition normalized_songs (songs : dict) : bool :=
  forallb (fun kv => normalized_record (fst kv) (snd kv)) songs.

(** Filing every entry of [items] under its own key, in order, on top of
    [acc]. *)
Definition refile (items acc : dict) : dict :=
  fold_left (fun acc kv => dict_set acc (fst kv) (snd kv)) items acc.

(** The songs of a catalog, when it has the expected shape. *)
Definition catalog_songs (data : pyval) : option dict :=
  match data with
  | PDict top =>
      match dict_get top "songs" with
      | Some (PDict songs) => Some songs
      | _ => None
      end
  | _ => None
  end.

(** A state of [library.json] on which [load_library] has nothing to
    normalize: the file is missing, unreadable or not JSON, or it holds an
    object whose [songs], if a dict, are all normalized. *)
Definition settled_file (f : file_state) : bool :=
  match f with
  | Absent | Unreadable | NotJson => true
  | NotUtf8 => false
  | Holds (PDict top) =>
      match dict_get top "songs" with
      | Some (PDict songs) => normalized_songs songs
      | _ => true
      end
  | Holds _ => false
  end.

(** Is [song_id] in the catalog [load_library] returns in world [w]? *)
Definition known_song (uuid4 : nat -> string) (container_repr : pyval -> string)
    (w : World) (song_id : string) : bool :=
  match fst (load_library uuid4 container_repr w) with
  | Returns data =>
      match catalog_songs data with
      | Some songs => dict_has songs song_id
      | None => false
      end
  | Raises _ => false
  end.

Definition record_cover_settled (v : pyval) : bool :=
  match v with
  | PDict sd => cover_settled (dict_get sd "coverSrc")
  | _ => false
  end.

Definition all_covers_settled (songs : dict) : Prop :=
  Forall (fun kv => record_cover_settled (snd kv) = true) songs.

(** [song_info.get(k)] *)
Definition field (info : dict) (k : string) : pyval :=
  match dict_get info k with
  | Some v => v
  | None => PNone
  end.

(** The body of the 200 answer of [delete_song]. *)
Definition deleted_body (container_repr : pyval -> string) (info : dict)
    (song_id : string) : pyval :=
  PDict [("success", PBool true);
         ("message",
          PStr ("Song '"
                ++ py_str container_repr
                     match dict_get info "title" with
                     | Some t => t
                     | None => PStr song_id
                     end
                ++ "' deleted."))].

(** ** The resolver, in the words of the specification *)




(** An embedded picture of an allowed type. *)
Definition allowed_picture (t : string * frame) : bool :=
  Str.startswith (fst t) "APIC" &&
  Str.mem (apic_ext (snd t)) ALLOWED_COVER_EXTENSIONS.

(** Writing the picture [fr] as the cover of [song_id]: the [coverSrc] that
    results and the world afterwards. *)
Definition store_picture (fr : frame) (song_id : string) (w : World)
    : option string * World :=
  let cover_filename := song_id ++ "." ++ apic_ext fr in
  match write_file w (path_join (Path COVERS_FOLDER) cover_filename) (data fr) with
  | Some w' => (Some ("/covers/" ++ cover_filename), w')
  | None => (None, w)
  end.

(** A [coverSrc] as the resolver sets it: none, or [/covers/<id>.<ext>]
    with an allowed extension. *)
Definition resolver_cover (song_id : string) (c : option string) : Prop :=
  c = None \/
  exists ext, Str.mem ext ALLOWED_COVER_EXTENSIONS = true /\
              c = Some ("/covers/" ++ song_id ++ "." ++ ext).

(** A request the validation of [upload_file] turns down. *)
Definition fails_validation (req : Request) : bool :=
  match req_file req with
  | None => true
  | Some mp3_file =>
      String.eqb (fs_filename mp3_file) EmptyString
      || negb (allowed_file (fs_filename mp3_file))
      || match req_coverFile req with
         | Some c => negb (String.eqb (fs_filename c) EmptyString)
                     && negb (allowed_cover_file (fs_filename c))
         | None => false
         end
  end.

(** ** Concrete worlds and inputs *)

Module Ex.

Definition uuid4 (n : nat) : string :=
  "7c9e6679-7425-40de-944b-e07fc1f90ae" ++ Str.of_nat n.

Definition container_repr (v : pyval) : string := "[]".

Definition secure_filename (s : string) : string := s.

Definition error_text (f : upload_failure) : string := "error".

(** A working directory [/srv] with the two storage directories and a
    sibling of the upload directory whose name starts the same way. *)
Definition directories : list path :=
  [["srv"]; ["srv"; "uploads"]; ["srv"; "uploads"; "covers"];
   ["srv"; "uploads_old"]].

Definition world (f : file_state) (fs : list (path * string)) : World :=
  {| library_file := f; library_writable := true; library_writes := 0;
     cwd := ["srv"]; dirs := directories; files := fs; locked := [];
     uuid_count := 0 |}.

(** A catalog as the upload handler writes it. *)
Definition tidy_songs : dict :=
  [("0b1e5a4c-aaaa", PDict [("id", PStr "0b1e5a4c-aaaa");
                            ("filename", PStr "a.mp3");
                            ("title", PStr "A");
                            ("audioSrc", PStr "/uploads/a.mp3");
                            ("coverSrc", PNone)]);
   ("0b1e5a4c-bbbb", PDict [("id", PStr "0b1e5a4c-bbbb");
                            ("title", PStr "B");
                            ("audioSrc", PStr "/uploads/b.mp3");
                            ("coverSrc", PStr "/images/b.png")])].

Definition tidy_top : dict := [("songs", PDict tidy_songs)].

Definition tidy_world : World :=
  world (Holds (PDict tidy_top)) [(["srv"; "uploads"; "a.mp3"], "A")].

(** A file from before identifiers and rooted paths. *)
Definition legacy_world : World :=
  world (Holds (PDict [("songs",
           PDict [("legacy", PDict [("filename", PStr "a.mp3");
                                    ("coverSrc", PStr "art/a.png")])])]))
        [].

Definition legacy_loaded : pyval :=
  Eval vm_compute in
    match fst (load_library uuid4 container_repr legacy_world) with
    | Returns d => d
    | Raises _ => PNone
    end.

Definition legacy_after : World :=
  Eval vm_compute in snd (load_library uuid4 container_repr legacy_world).

Definition legacy_songs : dict :=
  Eval vm_compute in
    match catalog_songs legacy_loaded with
    | Some songs => songs
    | None => []
    end.

(** The legacy record as [load_library] returns it. *)
Definition legacy_record : dict :=
  [("filename", PStr "a.mp3");
   ("coverSrc", PStr "/covers/a.png");
   ("id", PStr (uuid4 0));
   ("audioSrc", PStr "/uploads/a.mp3")].

(** A file that holds a JSON array. *)
Definition array_world : World := world (Holds (PList [])) [].

(** A record whose identifier is shorter than ten characters. *)
Definition short_id_catalog : pyval :=
  PDict [("songs", PDict [("song-1", PDict [("id", PStr "song-1");
                                            ("audioSrc", PStr "/uploads/a.mp3")])])].

(** A record whose stored [audioSrc] is not rooted. *)
Definition unrooted_world : World :=
  world (Holds (PDict [("songs",
           PDict [("0b1e5a4c-cccc", PDict [("id", PStr "0b1e5a4c-cccc");
                                           ("audioSrc", PStr "tracks/a.mp3")])])]))
        [].

(** A record whose file name leads into the sibling directory. *)
Definition sibling_file : path := ["srv"; "uploads_old"; "a.mp3"].

Definition sibling_world : World :=
  world (Holds (PDict [("songs",
           PDict [("0b1e5a4c-dddd", PDict [("id", PStr "0b1e5a4c-dddd");
                                           ("filename", PStr "../uploads_old/a.mp3");
                                           ("audioSrc", PStr "/uploads/a.mp3")])])]))
        [(sibling_file, "old")].

(** An audio file with an artist tag and three embedded pictures, the first
    of them a bitmap. *)
Definition EasyID3 (bytes : string) : easy_result :=
  if String.eqb bytes "A" then EasyTags [("artist", ["Tagged"])]
  else EasyNoHeader.

Definition bmp : frame := {| mime := "image/bmp"; data := "BMP" |}.
Definition png : frame := {| mime := "image/PNG"; data := "PNG" |}.
Definition gif : frame := {| mime := "image/gif"; data := "GIF" |}.

Definition MP3 (bytes : string) : mp3_result :=
  if String.eqb bytes "A"
  then Mp3Tags [("TIT2", {| mime := EmptyString; data := EmptyString |});
                ("APIC:front", bmp); ("APIC:back", png); ("APIC:disc", gif)]
  else Mp3Error.

Definition audio_world : World :=
  world Absent [(["srv"; "uploads"; "s.mp3"], "A")].

Definition text_upload : Request :=
  {| req_file := Some {| fs_filename := "notes.txt"; fs_bytes := "hello" |};
     req_artistName := None;
     req_coverFile := None |}.

Definition bad_cover_upload : Request :=
  {| req_file := Some {| fs_filename := "s.mp3"; fs_bytes := "A" |};
     req_artistName := Some "Test Artist";
     req_coverFile := Some {| fs_filename := "front.bmp"; fs_bytes := "BMP" |} |}.

(** Deleting the second tidy record: the catalog that is saved, and the
    world after the save. *)
(** The second tidy record. *)
Definition tidy_b : dict :=
  [("id", PStr "0b1e5a4c-bbbb"); ("title", PStr "B");
   ("audioSrc", PStr "/uploads/b.mp3"); ("coverSrc", PStr "/images/b.png")].

(** The tags before the first allowed picture of the example file, and
    those after it. *)
Definition tags_before : list (string * frame) :=
  [("TIT2", {| mime := EmptyString; data := EmptyString |}); ("APIC:front", bmp)].

Definition tags_after : list (string * frame) := [("APIC:disc", gif)].

Definition s_mp3 : PyPath := path_join (Path UPLOAD_FOLDER) "s.mp3".

Definition tidy_without_b : pyval :=
  PDict (dict_set tidy_top "songs" (PDict (dict_del tidy_songs "0b1e5a4c-bbbb"))).

Definition tidy_after_delete : World :=
  Eval vm_compute in snd (save_library tidy_without_b tidy_world).

End Ex.

(** ** Listing the catalog *)

Section Listing.

Variable uuid4 : nat -> string.
Variable container_repr : pyval -> string.

(** [get_songs()]: the records of the catalog, in its order. *)
Definition get_songs : M response :=
  (library_data <- load_library uuid4 container_repr ;;
   songs <- lift (py_get library_data "songs" (PDict [])) ;;
   items <- lift (py_items songs) ;;
   ret (PList (dict_values items), 200))%io.

End Listing.

(** ** Records that a load leaves alone *)

(** A record filed under [key] on which the loop of [load_library] changes
    nothing: its [id] is [key], a string of at least ten characters; it has
    an [audioSrc] or no [filename]; its [coverSrc] is settled. *)
Definition steady_record (key : string) (v : pyval) : bool :=
  match v with
  | PDict sd =>
      match dict_get sd "id" with
      | Some (PStr s) => String.eqb s key && Nat.leb 10 (String.length s)
      | _ => false
      end
      && (dict_has sd "audioSrc" || negb (dict_has sd "filename"))
      && cover_settled (dict_get sd "coverSrc")
  | _ => false
  end.

Definition steady_songs (songs : dict) : bool :=
  forallb (fun kv => steady_record (fst kv) (snd kv)) songs.

Definition steady_pair (kv : string * pyval) : Prop :=
  steady_record (fst kv) (snd kv) = true.


(** ** What stays the same between two worlds *)

(** Everything on the disk; only the count of identifiers may differ. *)
Definition same_disk (w w' : World) : Prop :=
  library_file w' = library_file w /\
  library_writable w' = library_writable w /\
  library_writes w' = library_writes w /\
  cwd w' = cwd w /\ dirs w' = dirs w /\ files w' = files w /\
  locked w' = locked w.

(** The media files and where they live. *)
Definition same_media (w w' : World) : Prop :=
  cwd w' = cwd w /\ dirs w' = dirs w /\ files w' = files w /\
  locked w' = locked w.

(** [library.json] and the count of identifiers. *)
Definition same_library (w w' : World) : Prop :=
  library_file w' = library_file w /\
  library_writable w' = library_writable w /\
  library_writes w' = library_writes w /\
  uuid_count w' = uuid_count w.

(** The directories and the locks. *)
Definition same_tree (w w' : World) : Prop :=
  cwd w' = cwd w /\ dirs w' = dirs w /\ locked w' = locked w.

(** ** The upload handler, step by step *)

(** The name the collision loop tries in round [n]. *)
Definition candidate (base ext : string) (n : nat) : string :=
  base ++ "_" ++ Str.of_nat n ++ ext.

(** [Path(UPLOAD_FOLDER) / name] *)
Definition in_uploads (name : string) : PyPath :=
  path_join (Path UPLOAD_FOLDER) name.

(** The artist the resolver falls back to when it reads no tags. *)
Definition missing_artist (mutagen : bool) : string :=
  if mutagen then "N/A (File missing?)" else "N/A (mutagen not installed)".

Section UploadSteps.

Variable uuid4 : nat -> string.
Variable MUTAGEN_AVAILABLE : bool.
Variable EasyID3 : string -> easy_result.
Variable MP3 : string -> mp3_result.

(** The call of [get_song_metadata] in [upload_file], once the audio is
    stored as [filename] and the world is [w1]. *)
Definition resolved_upload (req : Request) (filename : string) (w1 : World)
    : metadata * World :=
  get_song_metadata MUTAGEN_AVAILABLE EasyID3 MP3 filename
    (uuid4 (uuid_count w1))
    (given (Some (Str.strip match req_artistName req with
                            | Some a => a
                            | None => EmptyString
                            end)))
    (req_coverFile req) (bump_uuid w1).

End UploadSteps.

(** The body of the 201 answer. *)
Definition uploaded_body (filename : string) (m : metadata) : pyval :=
  PDict [("success", PBool true);
         ("message", PStr ("File '" ++ filename ++ "' uploaded."));
         ("song", PDict (metadata_dict m))].

(** ** More concrete worlds and inputs *)

Module More.

(** The upload directory with [s.mp3] and [s_1.mp3] taken. *)
Definition crowded_world : World :=
  Ex.world Absent [(["srv"; "uploads"; "s.mp3"], "A");
                   (["srv"; "uploads"; "s_1.mp3"], "B")].

(** A catalog file that cannot be opened for writing. *)
Definition readonly (w : World) : World :=
  {| library_file := library_file w; library_writable := false;
     library_writes := library_writes w; cwd := cwd w; dirs := dirs w;
     files := files w; locked := locked w; uuid_count := uuid_count w |}.

(** The tidy catalog with the audio file of its first record locked. *)
Definition locked_world : World :=
  {| library_file := Holds (PDict Ex.tidy_top); library_writable := true;
     library_writes := 0; cwd := ["srv"]; dirs := Ex.directories;
     files := [(["srv"; "uploads"; "a.mp3"], "A")];
     locked := [["srv"; "uploads"; "a.mp3"]]; uuid_count := 0 |}.

(** The tidy catalog with no file on the disk. *)
Definition bare_world : World := Ex.world (Holds (PDict Ex.tidy_top)) [].

(** The first tidy record. *)
Definition tidy_a : dict :=
  [("id", PStr "0b1e5a4c-aaaa"); ("filename", PStr "a.mp3");
   ("title", PStr "A"); ("audioSrc", PStr "/uploads/a.mp3");
   ("coverSrc", PNone)].

Definition tidy_without_a : pyval :=
  PDict (dict_set Ex.tidy_top "songs" (PDict (dict_del Ex.tidy_songs "0b1e5a4c-aaaa"))).

(** An upload of [s.mp3] with an artist and a JPEG cover. *)
Definition cover : FileStorage :=
  {| fs_filename := "front.JPG"; fs_bytes := "JPG" |}.

Definition audio : FileStorage :=
  {| fs_filename := "s.mp3"; fs_bytes := "A" |}.

Definition good_upload : Request :=
  {| req_file := Some audio;
     req_artistName := Some " Me ";
     req_coverFile := Some cover |}.

(** [audio_world] once the cover is stored for the identifier [ID]. *)
Definition with_cover : World :=
  Eval vm_compute in
    match write_file Ex.audio_world
            (path_join (Path COVERS_FOLDER) "ID.jpg") "JPG" with
    | Some w => w
    | None => Ex.audio_world
    end.

(** The steps of the good upload into [audio_world]. *)
Definition stored : World :=
  Eval vm_compute in
    match write_file Ex.audio_world (in_uploads "s_1.mp3") "A" with
    | Some w => w
    | None => Ex.audio_world
    end.

Definition resolved : metadata * World :=
  Eval vm_compute in
    resolved_upload Ex.uuid4 true Ex.EasyID3 Ex.MP3 good_upload "s_1.mp3" stored.

(** The answer to the good upload when the catalog cannot be written. *)
Definition failed_answer : outcome response * World :=
  Eval vm_compute in
    match upload_file Ex.uuid4 Ex.container_repr true Ex.EasyID3 Ex.MP3
            Ex.secure_filename Ex.error_text good_upload
            (readonly Ex.audio_world) with
    | Some r => r
    | None => (Raises KeyError, Ex.audio_world)
    end.

End More.

(** * Properties *)

(** ** Facts about dicts *)

Lemma dict_get_set_same (d : dict) (k : string) (v : pyval) :
  dict_get d k = Some v -> dict_set d k v = d.
Proof.
  induction d as [|[k' v'] d IH]; simpl; [discriminate|].
  destruct (String.eqb k' k) eqn:E.
  - intros [= ->]. reflexivity.
  - intros H. rewrite IH by assumption. reflexivity.
Qed.

Lemma dict_get_set_eq (d : dict) (k : string) (v : pyval) :
  dict_get (dict_set d k v) k = Some v.
Proof.
  induction d as [|[k' v'] d IH]; simpl.
  - rewrite String.eqb_refl. reflexivity.
  - destruct (String.eqb k' k) eqn:E; simpl; rewrite E; [reflexivity|exact IH].
Qed.

Lemma dict_has_get (d : dict) (k : string) :
  dict_has d k = true -> exists v, dict_get d k = Some v.
Proof.
  unfold dict_has. destruct (dict_get d k); [eauto|discriminate].
Qed.

Lemma dict_set_fresh (d : dict) (k : string) (v : pyval) :
  dict_get d k = None -> dict_set d k v = (d ++ [(k, v)])%list.
Proof.
  induction d as [|[k' v'] d IH]; simpl; [reflexivity|].
  destruct (String.eqb k' k); [discriminate|].
  intros H. rewrite IH by assumption. reflexivity.
Qed.

Lemma dict_get_notin (d : dict) (k : string) :
  ~ In k (dict_keys d) -> dict_get d k = None.
Proof.
  induction d as [|[k' v'] d IH]; simpl; [reflexivity|].
  intros H. destruct (String.eqb k' k) eqn:E.
  - apply String.eqb_eq in E. tauto.
  - apply IH. tauto.
Qed.

Lemma dict_set_all (P : pyval -> Prop) (d : dict) (k : string) (v : pyval) :
  Forall (fun kv => P (snd kv)) d -> P v ->
  Forall (fun kv => P (snd kv)) (dict_set d k v).
Proof.
  intros Hd Hv. induction d as [|[k' v'] d IH]; simpl.
  - constructor; [exact Hv|constructor].
  - inversion Hd; subst. destruct (String.eqb k' k); constructor; auto.
Qed.

(** Entries with distinct keys are refiled as they stand. *)
Lemma refile_nodup (items : dict) : forall acc,
  NoDup (dict_keys acc ++ dict_keys items) ->
  refile items acc = (acc ++ items)%list.
Proof.
  induction items as [|[k v] items IH]; intros acc H.
  - simpl. rewrite app_nil_r. reflexivity.
  - unfold refile. cbn [fold_left fst snd]. fold (refile items (dict_set acc k v)).
    rewrite dict_set_fresh.
    + rewrite IH.
      * rewrite <- app_assoc. reflexivity.
      * unfold dict_keys in *. rewrite map_app. cbn [map fst].
        rewrite <- app_assoc. exact H.
    + apply dict_get_notin. cbn [dict_keys map fst] in H.
      apply NoDup_remove_2 in H. intros Hin. apply H.
      apply in_or_app. left. exact Hin.
Qed.

(** ** Catalog store *)

Section CatalogStore.

Variable uuid4 : nat -> string.
Variable container_repr : pyval -> string.

(** A normalized record passes through the loop of [load_library] as it
    is, without a fresh identifier and without raising the save flag. *)
Lemma normalize_record_normalized key v ns w :
  normalized_record key v = true ->
  exists sd, v = PDict sd /\
    normalize_record uuid4 container_repr key v ns w = (Returns (key, sd, ns), w).
Proof.
  unfold normalized_record. destruct v as [| | | | |sd]; try discriminate.
  intros H. exists sd. split; [reflexivity|].
  apply andb_prop in H as [H Hcov]. apply andb_prop in H as [Hid Haud].
  destruct (dict_get sd "id") as [[| | |s| |]|] eqn:Eid; try discriminate.
  apply andb_prop in Hid as [Hk Hlen]. apply String.eqb_eq in Hk. subst s.
  apply dict_has_get in Haud as [a Ha].
  unfold normalize_record, bind, lift, ret. cbn [py_items].
  rewrite Eid. cbn [usable_id]. rewrite Hlen. rewrite String.eqb_refl.
  rewrite Ha.
  unfold cover_settled in Hcov.
  destruct (dict_get sd "coverSrc") as [c|] eqn:Ec; [|reflexivity].
  destruct (truthy c); [|reflexivity].
  destruct c; try discriminate. rewrite Hcov. reflexivity.
Qed.

Lemma load_loop_normalized items : forall ns acc w,
  normalized_songs items = true ->
  load_loop uuid4 container_repr items ns acc w
  = (Returns (ns, refile items acc), w).
Proof.
  induction items as [|[key v] items IH]; intros ns acc w H; [reflexivity|].
  simpl in H. apply andb_prop in H as [Hr Hrest].
  destruct (normalize_record_normalized key v ns w Hr) as (sd & -> & Hn).
  cbn [load_loop]. unfold bind at 1. rewrite Hn.
  rewrite IH by assumption. reflexivity.
Qed.

Lemma load_parsed_normalized top songs w :
  dict_get top "songs" = Some (PDict songs) ->
  normalized_songs songs = true ->
  load_parsed uuid4 container_repr (PDict top) w =
    (Returns (PDict (dict_set top "songs" (PDict (refile songs [])))), w).
Proof.
  intros Hs Hn. unfold load_parsed, bind, lift, ret.
  cbn [py_contains]. unfold dict_has. rewrite Hs.
  cbn [py_getitem]. rewrite Hs. cbn [is_dict py_get]. rewrite Hs.
  cbn [py_items]. rewrite load_loop_normalized by assumption.
  reflexivity.
Qed.

Lemma load_library_normalized w top songs :
  library_file w = Holds (PDict top) ->
  dict_get top "songs" = Some (PDict songs) ->
  normalized_songs songs = true ->
  load_library uuid4 container_repr w =
    (Returns (PDict (dict_set top "songs" (PDict (refile songs [])))), w).
Proof.
  intros Hf Hs Hn.
  unfold load_library. rewrite Hf. apply load_parsed_normalized; assumption.
Qed.

(** C9. Loading a catalog file that is already normalized (every record
    filed under its own [id], a string of at least ten characters; every
    record with an [audioSrc]; every [coverSrc] missing, empty or rooted)
    returns the catalog and leaves the world as it was: the file is not
    written, no identifier is drawn. *)
Theorem load_normalized_performs_no_rewrite :
  forall w top songs,
    library_file w = Holds (PDict top) ->
    dict_get top "songs" = Some (PDict songs) ->
    normalized_songs songs = true ->
    load_library uuid4 container_repr w =
      (Returns (PDict (dict_set top "songs" (PDict (refile songs [])))), w).
Proof.
  intros w top songs Hf Hs Hn. apply load_library_normalized; assumption.
Qed.

Lemma save_loop_normalized items : forall acc,
  normalized_songs items = true ->
  save_loop items acc = Returns (refile items acc).
Proof.
  induction items as [|[key v] items IH]; intros acc H; [reflexivity|].
  simpl in H. apply andb_prop in H as [Hr Hrest].
  unfold normalized_record in Hr.
  destruct v as [| | | | |sd]; try discriminate.
  apply andb_prop in Hr as [Hr _]. apply andb_prop in Hr as [Hid _].
  destruct (dict_get sd "id") as [[| | |s| |]|] eqn:Eid; try discriminate.
  apply andb_prop in Hid as [Hk _]. apply String.eqb_eq in Hk. subst s.
  cbn [save_loop]. rewrite Eid. cbn [hash_key obind].
  rewrite IH by assumption. reflexivity.
Qed.

Lemma save_library_normalized top songs w :
  dict_get top "songs" = Some (PDict songs) ->
  normalized_songs songs = true ->
  library_writable w = true ->
  let saved := PDict (dict_set top "songs" (PDict (refile songs []))) in
  save_library (PDict top) w = (Returns (true, saved), write_library w saved).
Proof.
  intros Hs Hn Hw saved. unfold save_library, save_prepare.
  cbn [py_contains obind]. unfold dict_has. rewrite Hs.
  cbn [py_getitem obind]. rewrite Hs. cbn [is_dict obind py_get]. rewrite Hs.
  cbn [py_items obind]. rewrite save_loop_normalized by assumption.
  cbn [obind py_setitem]. rewrite Hw. reflexivity.
Qed.

(** C5 (amended). For every normalized catalog whose keys are distinct,
    saving it to a writable file succeeds and loading it afterwards returns
    the very same catalog, without a further write. *)
Theorem save_then_load_normalized :
  forall w top songs,
    dict_get top "songs" = Some (PDict songs) ->
    NoDup (dict_keys songs) ->
    normalized_songs songs = true ->
    library_writable w = true ->
    exists w1,
      save_library (PDict top) w = (Returns (true, PDict top), w1) /\
      load_library uuid4 container_repr w1 = (Returns (PDict top), w1).
Proof.
  intros w top songs Hs Hnd Hn Hw.
  assert (Hre : refile songs [] = songs) by (apply refile_nodup; exact Hnd).
  assert (Htop : dict_set top "songs" (PDict songs) = top)
    by (apply dict_get_set_same; exact Hs).
  exists (write_library w (PDict top)). split.
  - rewrite (save_library_normalized top songs w Hs Hn Hw).
    cbv zeta. rewrite Hre, Htop. reflexivity.
  - rewrite (load_library_normalized _ top songs);
      [rewrite Hre, Htop; reflexivity | reflexivity | assumption | assumption].
Qed.

(** Whatever [json.load] returns that is not a dict makes the body of
    [load_library] raise a [TypeError], which its [except] does not catch. *)
Lemma load_parsed_not_object v w :
  is_dict v = false ->
  load_parsed uuid4 container_repr v w = (Raises TypeError, w).
Proof.
  intros H. unfold load_parsed, bind, lift, ret.
  destruct v as [| | |s|l|d]; try discriminate; cbn [py_contains]; try reflexivity.
  - destruct (Str.contains "songs" s); reflexivity.
  - match goal with |- context [existsb ?f l] => destruct (existsb f l) end;
      reflexivity.
Qed.

(** C2 (defect in the code). With [library.json] holding the JSON array
    [[]], [load_library] does not return the empty catalog: the store
    [data["songs"] = {}] raises a [TypeError] that leaves the function. *)
Theorem load_library_raises_on_json_array :
  load_library uuid4 container_repr Ex.array_world
  = (Raises TypeError, Ex.array_world).
Proof.
  unfold load_library. cbn [library_file Ex.array_world Ex.world].
  apply load_parsed_not_object. reflexivity.
Qed.

Lemma load_parsed_without_songs top w :
  match dict_get top "songs" with Some (PDict _) => False | _ => True end ->
  load_parsed uuid4 container_repr (PDict top) w =
    (Returns (PDict (dict_set (dict_set top "songs" (PDict [])) "songs" (PDict []))),
     w).
Proof.
  intros H. unfold load_parsed, bind, lift, ret.
  cbn [py_contains]. unfold dict_has.
  destruct (dict_get top "songs") as [v|] eqn:E.
  - cbn [py_getitem]. rewrite E. destruct v; try contradiction;
      cbn [is_dict py_setitem py_get]; rewrite dict_get_set_eq; reflexivity.
  - cbn [py_setitem py_get]. rewrite dict_get_set_eq. reflexivity.
Qed.

(** On a settled file [load_library] returns a catalog and changes
    nothing. *)
Lemma load_settled w :
  settled_file (library_file w) = true ->
  exists top songs,
    load_library uuid4 container_repr w = (Returns (PDict top), w) /\
    dict_get top "songs" = Some (PDict songs).
Proof.
  unfold settled_file, load_library.
  destruct (library_file w) as [| | | |v] eqn:Ef; try discriminate.
  1-3: intros _; exists [("songs", PDict [])], []; split; reflexivity.
  destruct v as [| | | | |top]; try discriminate.
  destruct (dict_get top "songs") as [v|] eqn:Es.
  - destruct v as [| | | | |songs].
    6: { intros Hn. eexists _, _. split.
         - apply load_parsed_normalized; eassumption.
         - apply dict_get_set_eq. }
    all: intros _; eexists _, _; split;
      [apply load_parsed_without_songs; rewrite Es; exact I
      | apply dict_get_set_eq].
  - intros _; eexists _, _; split;
      [apply load_parsed_without_songs; rewrite Es; exact I
      | apply dict_get_set_eq].
Qed.

(** C4 (amended). When [library.json] is in a state that needs no
    normalization, a DELETE for an identifier that is not in the loaded
    catalog answers 404 and leaves the world, the file included, exactly as
    it was. *)
Theorem delete_unknown_song_leaves_file :
  forall w song_id,
    settled_file (library_file w) = true ->
    known_song uuid4 container_repr w song_id = false ->
    delete_song uuid4 container_repr song_id w =
      (Returns (error_body "Song not found", 404), w).
Proof.
  intros w song_id Hs Hk.
  destruct (load_settled w Hs) as (top & songs & Hl & Hsongs).
  unfold known_song in Hk. rewrite Hl in Hk. cbn [fst catalog_songs] in Hk.
  rewrite Hsongs in Hk.
  unfold delete_song, bind, lift, ret. rewrite Hl.
  cbn [py_get]. rewrite Hsongs. cbn [py_contains]. rewrite Hk. reflexivity.
Qed.

(** *** What [load_library] guarantees of a [coverSrc] *)

Lemma normalize_record_cover key v ns w id sd ns' w' :
  normalize_record uuid4 container_repr key v ns w = (Returns (id, sd, ns'), w') ->
  cover_settled (dict_get sd "coverSrc") = true.
Proof.
  unfold normalize_record, bind, lift.
  destruct (py_items v) as [sd0|]; [|discriminate].
  match goal with
  | |- context [match ?c w with _ => _ end] =>
      destruct (c w) as [[[s b]|] w1]
  end; [|discriminate].
  match goal with
  | |- context [let '(_, _) := ?e in _] => destruct e as [sd1 b1]
  end.
  match goal with
  | |- context [let '(_, _) := ?e in _] => destruct e as [sd2 b2]
  end.
  unfold ret, raise, cover_settled.
  destruct (dict_get sd2 "coverSrc") as [c|] eqn:Ec.
  - destruct (truthy c) eqn:Et.
    + destruct c; try discriminate.
      destruct (Str.startswith s0 "/") eqn:Es; intros [= <- <- <- <-].
      * rewrite Ec, Et. exact Es.
      * rewrite dict_get_set_eq. reflexivity.
    + intros [= <- <- <- <-]. rewrite Ec, Et. reflexivity.
  - intros [= <- <- <- <-]. rewrite Ec. reflexivity.
Qed.

Lemma load_loop_covers items : forall ns acc w ns' out w',
  all_covers_settled acc ->
  load_loop uuid4 container_repr items ns acc w = (Returns (ns', out), w') ->
  all_covers_settled out.
Proof.
  induction items as [|[key v] items IH]; intros ns acc w ns' out w' Hacc H.
  - cbn in H. injection H as <- <- <-. exact Hacc.
  - cbn [load_loop] in H. unfold bind at 1 in H.
    destruct (normalize_record uuid4 container_repr key v ns w)
      as [[[[id sd] b]|e] w1] eqn:En; [|discriminate].
    eapply IH; [|exact H].
    apply (dict_set_all (fun v => record_cover_settled v = true));
      [exact Hacc|].
    cbn. eapply normalize_record_cover; exact En.
Qed.

Lemma save_loop_all (P : pyval -> Prop) items : forall acc out,
  Forall (fun kv => P (snd kv)) items ->
  Forall (fun kv => P (snd kv)) acc ->
  save_loop items acc = Returns out ->
  Forall (fun kv => P (snd kv)) out.
Proof.
  induction items as [|[key v] items IH]; intros acc out Hi Ha H.
  - cbn in H. injection H as <-. exact Ha.
  - inversion Hi as [|? ? Hv Hrest]; subst. cbn [save_loop] in H.
    destruct v as [| | | | |sd];
      [eapply IH; [exact Hrest|exact Ha|exact H] ..|].
    destruct (dict_get sd "id") as [id|];
      [|eapply IH; [exact Hrest|exact Ha|exact H]].
    destruct (hash_key id) as [k|]; [|discriminate]. cbn [obind] in H.
    eapply IH; [exact Hrest| |exact H]. apply dict_set_all; assumption.
Qed.

Lemma save_library_covers top songs w ok data w' :
  dict_get top "songs" = Some (PDict songs) ->
  all_covers_settled songs ->
  save_library (PDict top) w = (Returns (ok, data), w') ->
  exists songs', catalog_songs data = Some songs' /\ all_covers_settled songs'.
Proof.
  intros Hs Hall. unfold save_library, save_prepare.
  cbn [py_contains obind]. unfold dict_has. rewrite Hs.
  cbn [py_getitem obind]. rewrite Hs. cbn [is_dict obind py_get]. rewrite Hs.
  cbn [py_items obind].
  destruct (save_loop songs []) as [out|e] eqn:El.
  - cbn [obind py_setitem].
    assert (Hout : all_covers_settled out)
      by (eapply (save_loop_all (fun v => record_cover_settled v = true));
          [exact Hall|constructor|exact El]).
    destruct (library_writable w); intros [= <- <- <-];
      (exists out; split; [cbn; rewrite dict_get_set_eq; reflexivity|exact Hout]).
  - cbn [obind]. destruct e; intros [= <- <- <-].
    exists songs. split; [cbn; rewrite Hs; reflexivity|exact Hall].
Qed.

Lemma load_parsed_covers v w data w' :
  load_parsed uuid4 container_repr v w = (Returns data, w') ->
  exists songs, catalog_songs data = Some songs /\ all_covers_settled songs.
Proof.
  unfold load_parsed, bind, lift.
  destruct (py_contains v "songs") as [has|]; [|discriminate].
  match goal with
  | |- context [match ?c w with _ => _ end] =>
      destruct (c w) as [[ok|] w1] eqn:E1; [|discriminate]
  end.
  match goal with
  | |- context [match ?c w1 with _ => _ end] =>
      destruct (c w1) as [[d1|] w2] eqn:E2; [|discriminate]
  end.
  destruct (py_get d1 "songs" (PDict [])) as [sv|]; [|discriminate].
  destruct (py_items sv) as [items|]; [|discriminate].
  destruct (load_loop uuid4 container_repr items false [] w2)
    as [[[ns upd]|] w3] eqn:El; [|discriminate].
  assert (Hupd : all_covers_settled upd)
    by (eapply load_loop_covers; [constructor|exact El]).
  destruct d1 as [| | | | |top1]; try discriminate.
  cbn [py_setitem].
  destruct ns.
  - destruct (save_library (PDict (dict_set top1 "songs" (PDict upd))) w3)
      as [[[ok' data']|] w4] eqn:Es; [|discriminate].
    unfold ret. intros [= <- <-].
    eapply save_library_covers; [apply dict_get_set_eq|exact Hupd|exact Es].
  - unfold ret. intros [= <- <-]. exists upd. split; [|exact Hupd].
    cbn. rewrite dict_get_set_eq. reflexivity.
Qed.

(** Every record [load_library] returns has a settled [coverSrc]. *)
Lemma load_library_covers w data w' :
  load_library uuid4 container_repr w = (Returns data, w') ->
  exists songs, catalog_songs data = Some songs /\ all_covers_settled songs.
Proof.
  unfold load_library. destruct (library_file w).
  1,2,4: intros [= <- <-]; exists []; split; [reflexivity|constructor].
  - discriminate.
  - apply load_parsed_covers.
Qed.

Lemma load_library_cover_rooted w data w' songs key sd c :
  load_library uuid4 container_repr w = (Returns data, w') ->
  catalog_songs data = Some songs ->
  In (key, PDict sd) songs ->
  dict_get sd "coverSrc" = Some (PStr c) ->
  String.eqb c EmptyString = false ->
  Str.startswith c "/" = true.
Proof.
  intros Hl Hs Hin Hc Hne.
  destruct (load_library_covers w data w' Hl) as (songs' & Hs' & Hall).
  rewrite Hs in Hs'. injection Hs' as <-.
  unfold all_covers_settled in Hall. rewrite Forall_forall in Hall.
  specialize (Hall _ Hin). cbn in Hall. rewrite Hc in Hall.
  unfold cover_settled in Hall. cbn [truthy] in Hall. rewrite Hne in Hall.
  exact Hall.
Qed.

(** ** Deletion handler *)

Lemma delete_cover_malformed c w :
  c <> EmptyString ->
  Str.startswith (Str.lstrip "/" c) "covers/" = false ->
  delete_cover (PStr c) w = (Returns true, w).
Proof.
  intros Hc Hp. unfold delete_cover. cbn [truthy].
  destruct (String.eqb c EmptyString) eqn:E; [apply String.eqb_eq in E; contradiction|].
  cbn [negb]. change (COVERS_FOLDER_NAME ++ "/") with "covers/".
  rewrite Hp. reflexivity.
Qed.

(** C10. For a record of the loaded catalog whose [coverSrc] is a non-empty
    string that, stripped of its leading slashes, does not start with
    [covers/], the cover slot reports success and leaves the world as it
    is; so when the audio slot succeeds and the catalog can be saved, the
    handler deletes the entry and answers 200, and the world it leaves is
    the one the save left. *)
Theorem malformed_cover_never_blocks_deletion :
  forall w song_id top songs info c w1 w2 w3 d,
    load_library uuid4 container_repr w = (Returns (PDict top), w1) ->
    dict_get top "songs" = Some (PDict songs) ->
    dict_get songs song_id = Some (PDict info) ->
    dict_get info "coverSrc" = Some (PStr c) ->
    truthy (PStr c) = true ->
    Str.startswith (Str.lstrip "/" c) "covers/" = false ->
    delete_audio (field info "filename") w1 = (Returns true, w2) ->
    save_library (PDict (dict_set top "songs" (PDict (dict_del songs song_id)))) w2
      = (Returns (true, d), w3) ->
    delete_cover (PStr c) w2 = (Returns true, w2) /\
    delete_song uuid4 container_repr song_id w
      = (Returns (deleted_body container_repr info song_id, 200), w3).
Proof.
  intros w song_id top songs info c w1 w2 w3 d
         Hload Hsongs Hinfo Hcov Htruthy Hprefix Haudio Hsave.
  assert (Hslot : forall w', delete_cover (PStr c) w' = (Returns true, w')).
  { intros w'. apply delete_cover_malformed; [|exact Hprefix].
    intros ->. discriminate Htruthy. }
  split; [apply Hslot|].
  unfold delete_song, bind, lift, ret. rewrite Hload.
  cbn [py_get]. rewrite Hsongs. cbn [py_contains]. unfold dict_has.
  rewrite Hinfo. cbn [negb py_getitem]. rewrite Hsongs. cbn [py_getitem].
  rewrite Hinfo. cbn [py_get]. rewrite Hcov.
  fold (field info "filename"). rewrite Haudio, Hslot.
  cbn [andb py_items py_setitem]. rewrite Hsave. reflexivity.
Qed.

(** C1 (defect in the code). The record's file name leads to
    [/srv/uploads_old/a.mp3], which is not within the upload directory
    [/srv/uploads]; the text of the one path starts with the text of the
    other, the check passes, and the handler removes the file and answers
    200. *)
Theorem delete_song_removes_file_outside_upload_folder :
  within (resolve Ex.sibling_world (Path UPLOAD_FOLDER)) Ex.sibling_file = false /\
  is_regular Ex.sibling_world Ex.sibling_file = true /\
  is_regular
    (snd (delete_song uuid4 container_repr "0b1e5a4c-dddd" Ex.sibling_world))
    Ex.sibling_file = false /\
  fst (delete_song uuid4 container_repr "0b1e5a4c-dddd" Ex.sibling_world)
  = Returns (deleted_body container_repr
               [("id", PStr "0b1e5a4c-dddd");
                ("filename", PStr "../uploads_old/a.mp3");
                ("audioSrc", PStr "/uploads/a.mp3")] "0b1e5a4c-dddd", 200).
Proof.
  repeat split; vm_compute; reflexivity.
Qed.

End CatalogStore.

(** ** Metadata resolver *)

Section Resolver.

Variable MUTAGEN_AVAILABLE : bool.
Variable EasyID3 : string -> easy_result.
Variable MP3 : string -> mp3_result.





(** Tags that are no allowed picture are passed over. *)
Lemma scan_tags_skip pre : forall rest song_id w,
  forallb (fun t => negb (allowed_picture t)) pre = true ->
  scan_tags (pre ++ rest) song_id w = scan_tags rest song_id w.
Proof.
  induction pre as [|[name fr] pre IH]; intros rest song_id w H; [reflexivity|].
  cbn [forallb] in H. apply andb_prop in H as [Hh Ht].
  unfold allowed_picture in Hh. cbn [fst snd] in Hh.
  cbn [app scan_tags].
  destruct (Str.startswith name "APIC"); [|apply IH; exact Ht].
  cbn [andb] in Hh. apply negb_true_iff in Hh. rewrite Hh. apply IH; exact Ht.
Qed.

(** At an allowed picture the loop ends, whatever follows. *)
Lemma scan_tags_hit name fr rest song_id w :
  allowed_picture (name, fr) = true ->
  scan_tags ((name, fr) :: rest) song_id w = store_picture fr song_id w.
Proof.
  unfold allowed_picture. cbn [fst snd]. intros H.
  apply andb_prop in H as [Hn He].
  cbn [scan_tags]. rewrite Hn, He. reflexivity.
Qed.

Lemma read_basic_coverSrc r manual m :
  md_coverSrc (read_basic r manual m) = md_coverSrc m.
Proof.
  unfold read_basic, basic_read_failed.
  repeat match goal with
         | |- context [match ?x with _ => _ end] => destruct x
         end; reflexivity.
Qed.

Lemma read_basic_audioSrc r manual m :
  md_audioSrc (read_basic r manual m) = md_audioSrc m.
Proof.
  unfold read_basic, basic_read_failed.
  repeat match goal with
         | |- context [match ?x with _ => _ end] => destruct x
         end; reflexivity.
Qed.

(** C3 (amended). With no cover uploaded, the scan of the tags passes over
    every tag that is not a picture of an allowed type, disallowed pictures
    included, and ends at the first picture of an allowed type: that
    picture is written as the cover (no cover is set if the write fails),
    and nothing after it is looked at. *)
Theorem embedded_cover_is_first_allowed_picture :
  forall mp3 song_id manual w pre name fr rest,
    path_is_file w (path_join (Path UPLOAD_FOLDER) mp3) = true ->
    open_mp3 MP3 w (path_join (Path UPLOAD_FOLDER) mp3)
      = Mp3Tags (pre ++ (name, fr) :: rest) ->
    forallb (fun t => negb (allowed_picture t)) pre = true ->
    allowed_picture (name, fr) = true ->
    let r := get_song_metadata true EasyID3 MP3 mp3 song_id manual None w in
    (md_coverSrc (fst r), snd r) = store_picture fr song_id w.
Proof.
  intros mp3 song_id manual w pre name fr rest Hfile Htags Hpre Hhit r.
  subst r. unfold get_song_metadata. cbn [save_uploaded_cover].
  rewrite Hfile. cbn [andb negb]. rewrite Htags.
  rewrite scan_tags_skip by exact Hpre. rewrite scan_tags_hit by exact Hhit.
  unfold store_picture.
  destruct (write_file w _ (data fr)) as [w'|]; cbn [fst snd].
  - destruct (_ || _); reflexivity.
  - destruct (_ || _); cbn [md_coverSrc with_artist];
      rewrite ?read_basic_coverSrc; reflexivity.
Qed.

Lemma scan_tags_cover tags : forall song_id w,
  resolver_cover song_id (fst (scan_tags tags song_id w)).
Proof.
  induction tags as [|[name fr] tags IH]; intros song_id w; [left; reflexivity|].
  cbn [scan_tags]. destruct (Str.startswith name "APIC"); [|apply IH].
  destruct (Str.mem (apic_ext fr) ALLOWED_COVER_EXTENSIONS) eqn:E; [|apply IH].
  destruct (write_file w _ (data fr)); [|left; reflexivity].
  right. exists (apic_ext fr). split; [exact E|reflexivity].
Qed.

Lemma save_uploaded_cover_srcs song_id cover mp3 w :
  let m := fst (fst (save_uploaded_cover song_id cover
                       (seed_metadata mp3 song_id) w)) in
  md_audioSrc m = "/uploads/" ++ mp3 /\ resolver_cover song_id (md_coverSrc m).
Proof.
  unfold save_uploaded_cover.
  destruct cover as [f|]; [|split; [reflexivity|left; reflexivity]].
  destruct (negb (String.eqb (fs_filename f) EmptyString)); cbn [andb];
    [|split; [reflexivity|left; reflexivity]].
  destruct (allowed_cover_file (fs_filename f)) eqn:Ea;
    [|split; [reflexivity|left; reflexivity]].
  destruct (write_file w _ (fs_bytes f)); [|split; [reflexivity|left; reflexivity]].
  split; [reflexivity|]. right.
  exists (Str.lower (Str.after_last "." (fs_filename f))). split; [|reflexivity].
  unfold allowed_cover_file in Ea. apply andb_prop in Ea as [_ Ea]. exact Ea.
Qed.

(** The two sources of a record the resolver builds. *)
Lemma resolver_srcs mp3 song_id manual cover w :
  let m := fst (get_song_metadata MUTAGEN_AVAILABLE EasyID3 MP3
                  mp3 song_id manual cover w) in
  md_audioSrc m = "/uploads/" ++ mp3 /\ resolver_cover song_id (md_coverSrc m).
Proof.
  cbv zeta. unfold get_song_metadata.
  pose proof (save_uploaded_cover_srcs song_id cover mp3 w) as H. cbv zeta in H.
  destruct (save_uploaded_cover song_id cover (seed_metadata mp3 song_id) w)
    as [[m1 cover_saved] w1]. cbn [fst] in H. destruct H as [Haud Hcov].
  destruct (MUTAGEN_AVAILABLE && path_is_file w1 _).
  - destruct cover_saved; cbn [negb].
    + destruct (_ || _); cbn [fst md_audioSrc md_coverSrc with_artist];
        rewrite read_basic_audioSrc, read_basic_coverSrc; split; assumption.
    + destruct (open_mp3 MP3 w1 _) as [|tags].
      * destruct (_ || _); cbn [fst md_audioSrc md_coverSrc with_artist];
          rewrite read_basic_audioSrc, read_basic_coverSrc; split; assumption.
      * pose proof (scan_tags_cover tags song_id w1) as Hs.
        destruct (scan_tags tags song_id w1) as [[c|] w2]; cbn [fst] in Hs;
          destruct (_ || _);
          cbn [fst md_audioSrc md_coverSrc with_artist with_coverSrc];
          rewrite ?read_basic_audioSrc, ?read_basic_coverSrc; split; assumption.
  - destruct (negb MUTAGEN_AVAILABLE); destruct (_ || _);
      cbn [fst md_audioSrc md_coverSrc with_artist]; split; assumption.
Qed.

End Resolver.

(** C6 (amended). In every record of a catalog [load_library] returns, a
    [coverSrc] that is a non-empty string starts with a slash; every record
    the resolver builds has [/uploads/<filename>] as its [audioSrc] and no
    [coverSrc] or [/covers/<id>.<ext>] with an allowed extension.  (An
    [audioSrc] stored in the file is returned as it is.) *)
Theorem sources_after_load_and_resolve :
  (forall uuid4 container_repr w data w' songs key sd c,
      load_library uuid4 container_repr w = (Returns data, w') ->
      catalog_songs data = Some songs ->
      In (key, PDict sd) songs ->
      dict_get sd "coverSrc" = Some (PStr c) ->
      String.eqb c EmptyString = false ->
      Str.startswith c "/" = true)
  /\
  (forall MUTAGEN_AVAILABLE EasyID3 MP3 mp3 song_id manual cover w,
      let m := fst (get_song_metadata MUTAGEN_AVAILABLE EasyID3 MP3
                      mp3 song_id manual cover w) in
      md_audioSrc m = "/uploads/" ++ mp3 /\
      resolver_cover song_id (md_coverSrc m)).
Proof.
  split.
  - intros. eapply load_library_cover_rooted; eassumption.
  - intros. apply resolver_srcs.
Qed.

(** ** Upload handler *)

(** C8. A request that fails validation (no audio part, an empty audio
    file name, an audio extension other than [mp3] in any case, or a named
    cover with an extension outside the allowed image set) is answered 400
    and the world, every directory included, stays as it was. *)
Theorem rejected_upload_writes_nothing :
  forall uuid4 container_repr MUTAGEN_AVAILABLE EasyID3 MP3
         secure_filename error_text req w,
    fails_validation req = true ->
    exists body,
      upload_file uuid4 container_repr MUTAGEN_AVAILABLE EasyID3 MP3
                  secure_filename error_text req w
      = Some (Returns (body, 400), w).
Proof.
  intros uuid4 cr MUT EasyID3 MP3 sf et req w H.
  unfold fails_validation in H. unfold upload_file.
  destruct (req_file req) as [f|]; [|eexists; reflexivity].
  destruct (String.eqb (fs_filename f) EmptyString); [eexists; reflexivity|].
  destruct (allowed_file (fs_filename f)); cbn [negb orb] in *;
    [|eexists; reflexivity].
  destruct (req_coverFile req) as [c|]; [|discriminate].
  rewrite H. eexists; reflexivity.
Qed.

(** ** The theorems at concrete inputs *)

Lemma load_normalized_performs_no_rewrite_witness :
  library_file Ex.tidy_world = Holds (PDict Ex.tidy_top) /\
  dict_get Ex.tidy_top "songs" = Some (PDict Ex.tidy_songs) /\
  normalized_songs Ex.tidy_songs = true /\
  load_library Ex.uuid4 Ex.container_repr Ex.tidy_world
  = (Returns (PDict (dict_set Ex.tidy_top "songs"
                       (PDict (refile Ex.tidy_songs [])))),
     Ex.tidy_world).
Proof.
  split; [reflexivity|]. split; [reflexivity|]. split; [reflexivity|].
  apply (load_normalized_performs_no_rewrite Ex.uuid4 Ex.container_repr
           Ex.tidy_world Ex.tidy_top Ex.tidy_songs); reflexivity.
Defined.

Lemma tidy_keys_distinct : NoDup (dict_keys Ex.tidy_songs).
Proof.
  constructor.
  - simpl. intros [H|[]]. discriminate H.
  - constructor; [intros []|constructor].
Defined.

Lemma save_then_load_normalized_witness :
  dict_get Ex.tidy_top "songs" = Some (PDict Ex.tidy_songs) /\
  NoDup (dict_keys Ex.tidy_songs) /\
  normalized_songs Ex.tidy_songs = true /\
  library_writable (Ex.world Absent []) = true /\
  exists w1,
    save_library (PDict Ex.tidy_top) (Ex.world Absent [])
    = (Returns (true, PDict Ex.tidy_top), w1) /\
    load_library Ex.uuid4 Ex.container_repr w1 = (Returns (PDict Ex.tidy_top), w1).
Proof.
  split; [reflexivity|]. split; [exact tidy_keys_distinct|].
  split; [reflexivity|]. split; [reflexivity|].
  apply (save_then_load_normalized Ex.uuid4 Ex.container_repr
           (Ex.world Absent []) Ex.tidy_top Ex.tidy_songs);
    [reflexivity|exact tidy_keys_distinct|reflexivity|reflexivity].
Defined.

Lemma delete_unknown_song_leaves_file_witness :
  settled_file (library_file Ex.tidy_world) = true /\
  known_song Ex.uuid4 Ex.container_repr Ex.tidy_world "no-such-song" = false /\
  delete_song Ex.uuid4 Ex.container_repr "no-such-song" Ex.tidy_world
  = (Returns (error_body "Song not found", 404), Ex.tidy_world).
Proof.
  split; [reflexivity|]. split; [reflexivity|].
  apply (delete_unknown_song_leaves_file Ex.uuid4 Ex.container_repr
           Ex.tidy_world "no-such-song"); reflexivity.
Defined.

Lemma sources_after_load_and_resolve_witness :
  load_library Ex.uuid4 Ex.container_repr Ex.legacy_world
  = (Returns Ex.legacy_loaded, Ex.legacy_after) /\
  catalog_songs Ex.legacy_loaded = Some Ex.legacy_songs /\
  In (Ex.uuid4 0, PDict Ex.legacy_record) Ex.legacy_songs /\
  dict_get Ex.legacy_record "coverSrc" = Some (PStr "/covers/a.png") /\
  String.eqb "/covers/a.png" EmptyString = false /\
  Str.startswith "/covers/a.png" "/" = true.
Proof.
  assert (H1 : load_library Ex.uuid4 Ex.container_repr Ex.legacy_world
               = (Returns Ex.legacy_loaded, Ex.legacy_after))
    by (vm_compute; reflexivity).
  assert (H2 : catalog_songs Ex.legacy_loaded = Some Ex.legacy_songs)
    by reflexivity.
  assert (H3 : In (Ex.uuid4 0, PDict Ex.legacy_record) Ex.legacy_songs)
    by (left; reflexivity).
  split; [exact H1|]. split; [exact H2|]. split; [exact H3|].
  split; [reflexivity|]. split; [reflexivity|].
  apply (proj1 sources_after_load_and_resolve Ex.uuid4 Ex.container_repr
           Ex.legacy_world Ex.legacy_loaded Ex.legacy_after Ex.legacy_songs
           (Ex.uuid4 0) Ex.legacy_record "/covers/a.png" H1 H2 H3);
    reflexivity.
Defined.


Lemma embedded_cover_is_first_allowed_picture_witness :
  path_is_file Ex.audio_world Ex.s_mp3 = true /\
  open_mp3 Ex.MP3 Ex.audio_world Ex.s_mp3
  = Mp3Tags (Ex.tags_before ++ ("APIC:back", Ex.png) :: Ex.tags_after) /\
  forallb (fun t => negb (allowed_picture t)) Ex.tags_before = true /\
  allowed_picture ("APIC:back", Ex.png) = true /\
  (md_coverSrc (fst (get_song_metadata true Ex.EasyID3 Ex.MP3 "s.mp3" "ID"
                       None None Ex.audio_world)),
   snd (get_song_metadata true Ex.EasyID3 Ex.MP3 "s.mp3" "ID"
          None None Ex.audio_world))
  = store_picture Ex.png "ID" Ex.audio_world.
Proof.
  split; [reflexivity|]. split; [reflexivity|]. split; [reflexivity|].
  split; [reflexivity|].
  apply (embedded_cover_is_first_allowed_picture Ex.EasyID3 Ex.MP3 "s.mp3" "ID"
           None Ex.audio_world Ex.tags_before "APIC:back" Ex.png Ex.tags_after);
    reflexivity.
Defined.

Lemma rejected_upload_writes_nothing_witness :
  fails_validation Ex.text_upload = true /\
  exists body,
    upload_file Ex.uuid4 Ex.container_repr true Ex.EasyID3 Ex.MP3
                Ex.secure_filename Ex.error_text Ex.text_upload Ex.audio_world
    = Some (Returns (body, 400), Ex.audio_world).
Proof.
  split; [reflexivity|].
  apply (rejected_upload_writes_nothing Ex.uuid4 Ex.container_repr true
           Ex.EasyID3 Ex.MP3 Ex.secure_filename Ex.error_text
           Ex.text_upload Ex.audio_world); reflexivity.
Defined.

Lemma malformed_cover_never_blocks_deletion_witness :
  load_library Ex.uuid4 Ex.container_repr Ex.tidy_world
  = (Returns (PDict Ex.tidy_top), Ex.tidy_world) /\
  dict_get Ex.tidy_top "songs" = Some (PDict Ex.tidy_songs) /\
  dict_get Ex.tidy_songs "0b1e5a4c-bbbb" = Some (PDict Ex.tidy_b) /\
  dict_get Ex.tidy_b "coverSrc" = Some (PStr "/images/b.png") /\
  truthy (PStr "/images/b.png") = true /\
  Str.startswith (Str.lstrip "/" "/images/b.png") "covers/" = false /\
  delete_audio (field Ex.tidy_b "filename") Ex.tidy_world
  = (Returns true, Ex.tidy_world) /\
  save_library Ex.tidy_without_b Ex.tidy_world
  = (Returns (true, Ex.tidy_without_b), Ex.tidy_after_delete) /\
  delete_cover (PStr "/images/b.png") Ex.tidy_world
  = (Returns true, Ex.tidy_world) /\
  delete_song Ex.uuid4 Ex.container_repr "0b1e5a4c-bbbb" Ex.tidy_world
  = (Returns (deleted_body Ex.container_repr Ex.tidy_b "0b1e5a4c-bbbb", 200),
     Ex.tidy_after_delete).
Proof.
  assert (H1 : load_library Ex.uuid4 Ex.container_repr Ex.tidy_world
               = (Returns (PDict Ex.tidy_top), Ex.tidy_world))
    by (vm_compute; reflexivity).
  assert (H8 : save_library Ex.tidy_without_b Ex.tidy_world
               = (Returns (true, Ex.tidy_without_b), Ex.tidy_after_delete))
    by (vm_compute; reflexivity).
  split; [exact H1|]. split; [reflexivity|]. split; [reflexivity|].
  split; [reflexivity|]. split; [reflexivity|]. split; [reflexivity|].
  split; [reflexivity|]. split; [exact H8|].
  apply (malformed_cover_never_blocks_deletion Ex.uuid4 Ex.container_repr
           Ex.tidy_world "0b1e5a4c-bbbb" Ex.tidy_top Ex.tidy_songs Ex.tidy_b
           "/images/b.png" Ex.tidy_world Ex.tidy_world Ex.tidy_after_delete
           Ex.tidy_without_b H1);
    [reflexivity|reflexivity|reflexivity|reflexivity|reflexivity|reflexivity
    |exact H8].
Defined.

(** ** Where the specification and the code part *)

(** Against C3: the first embedded picture of the example file is a
    bitmap, a type that is not allowed; the scan goes on, and the second
    picture becomes the cover. *)
Lemma scan_continues_after_disallowed_picture :
  open_mp3 Ex.MP3 Ex.audio_world Ex.s_mp3
  = Mp3Tags [("TIT2", {| mime := EmptyString; data := EmptyString |}); ("APIC:front", Ex.bmp);
             ("APIC:back", Ex.png); ("APIC:disc", Ex.gif)] /\
  allowed_picture ("APIC:front", Ex.bmp) = false /\
  md_coverSrc (fst (get_song_metadata true Ex.EasyID3 Ex.MP3 "s.mp3" "ID"
                      None None Ex.audio_world))
  = Some "/covers/ID.png" /\
  read_file (snd (get_song_metadata true Ex.EasyID3 Ex.MP3 "s.mp3" "ID"
                    None None Ex.audio_world))
            (path_join (Path COVERS_FOLDER) "ID.png")
  = Some "PNG".
Proof.
  repeat split; vm_compute; reflexivity.
Qed.

(** Against C4: on a legacy file a DELETE for an unknown identifier answers
    404, yet the load it starts with has normalized the catalog and written
    it back. *)
Lemma delete_unknown_song_rewrites_legacy_file :
  fst (delete_song Ex.uuid4 Ex.container_repr "no-such-song" Ex.legacy_world)
  = Returns (error_body "Song not found", 404) /\
  library_file
    (snd (delete_song Ex.uuid4 Ex.container_repr "no-such-song" Ex.legacy_world))
  = Holds Ex.legacy_loaded /\
  Holds Ex.legacy_loaded <> library_file Ex.legacy_world /\
  library_writes
    (snd (delete_song Ex.uuid4 Ex.container_repr "no-such-song" Ex.legacy_world))
  = 1.
Proof.
  split; [vm_compute; reflexivity|]. split; [vm_compute; reflexivity|].
  split; [vm_compute; discriminate|vm_compute; reflexivity].
Qed.

(** Against C5: a record whose identifier has fewer than ten characters is
    saved under it, and loaded back under a fresh one. *)
Lemma round_trip_renames_short_id :
  fst (save_library Ex.short_id_catalog (Ex.world Absent []))
  = Returns (true, Ex.short_id_catalog) /\
  fst (load_library Ex.uuid4 Ex.container_repr
         (snd (save_library Ex.short_id_catalog (Ex.world Absent []))))
  = Returns (PDict [("songs",
       PDict [(Ex.uuid4 0, PDict [("id", PStr (Ex.uuid4 0));
                                  ("audioSrc", PStr "/uploads/a.mp3")])])]) /\
  known_song Ex.uuid4 Ex.container_repr
    (snd (save_library Ex.short_id_catalog (Ex.world Absent []))) "song-1"
  = false.
Proof.
  repeat split; vm_compute; reflexivity.
Qed.

(** Against C6: [load_library] returns a stored [audioSrc] that does not
    start with a slash as it found it. *)
Lemma load_keeps_unrooted_audioSrc :
  load_library Ex.uuid4 Ex.container_repr Ex.unrooted_world
  = (Returns (PDict [("songs",
       PDict [("0b1e5a4c-cccc", PDict [("id", PStr "0b1e5a4c-cccc");
                                       ("audioSrc", PStr "tracks/a.mp3")])])]),
     Ex.unrooted_world) /\
  Str.startswith "tracks/a.mp3" "/" = false.
Proof.
  split; vm_compute; reflexivity.
Qed.

(** * Further properties of the code *)

(** ** Names and extensions *)

Lemma contains_char_app c (a b : string) :
  Str.contains_char c (a ++ b) = Str.contains_char c a || Str.contains_char c b.
Proof.
  induction a as [|x a IH]; simpl; [reflexivity|].
  rewrite IH. apply orb_assoc.
Qed.

Lemma after_last_app c (a b : string) :
  Str.contains_char c b = false ->
  Str.after_last c (a ++ String c b) = b.
Proof.
  intros Hb. induction a as [|x a IH]; simpl.
  - rewrite Hb. rewrite Ascii.eqb_refl. reflexivity.
  - rewrite contains_char_app. simpl. rewrite Ascii.eqb_refl.
    rewrite orb_true_r. exact IH.
Qed.

(** X1. For a file name that ends in a dot and an extension without
    further dots, [allowed_file] and [allowed_cover_file] decide by that
    last extension alone, whatever its case: the one asks for [mp3], the
    other for [png], [jpg], [jpeg] or [gif]. *)
Theorem extension_decides_allowed :
  forall base ext,
    Str.contains_char "." ext = false ->
    allowed_file (base ++ "." ++ ext)
      = Str.mem (Str.lower ext) ALLOWED_EXTENSIONS /\
    allowed_cover_file (base ++ "." ++ ext)
      = Str.mem (Str.lower ext) ALLOWED_COVER_EXTENSIONS.
Proof.
  intros base ext H. unfold allowed_file, allowed_cover_file.
  change ("." ++ ext) with (String "." ext).
  rewrite contains_char_app. cbn [Str.contains_char]. rewrite Ascii.eqb_refl.
  cbn [orb]. rewrite orb_true_r. rewrite after_last_app by exact H.
  split; reflexivity.
Qed.




Lemma unique_name_free :
  forall fuel w base ext filename counter name,
    unique_name fuel w base ext filename counter = Some name ->
    path_exists w (in_uploads name) = false.
Proof.
  induction fuel as [|fuel IH]; intros w base ext filename counter name;
    cbn [unique_name]; fold (in_uploads filename);
    destruct (path_exists w (in_uploads filename)) eqn:E.
  - discriminate.
  - intros [= <-]. exact E.
  - apply IH.
  - intros [= <-]. exact E.
Qed.

(** X2. Whatever name the collision loop of [upload_file] settles on,
    nothing exists under it in the upload directory: an upload never
    overwrites a stored file. *)
Theorem unique_name_is_free :
  forall fuel w base ext filename counter name,
    unique_name fuel w base ext filename counter = Some name ->
    path_exists w (in_uploads name) = false.
Proof.
  induction fuel as [|fuel IH]; intros w base ext filename counter name;
    cbn [unique_name]; fold (in_uploads filename);
    destruct (path_exists w (in_uploads filename)) eqn:E.
  - discriminate.
  - intros [= <-]. exact E.
  - apply IH.
  - intros [= <-]. exact E.
Qed.

Lemma unique_name_from_candidate w base ext :
  forall k fuel c,
    k <= fuel ->
    (forall j, j < k -> path_exists w (in_uploads (candidate base ext (c + j))) = true) ->
    path_exists w (in_uploads (candidate base ext (c + k))) = false ->
    unique_name fuel w base ext (candidate base ext c) (S c)
    = Some (candidate base ext (c + k)).
Proof.
  induction k as [|k IH]; intros fuel c Hk Hbusy Hfree.
  - rewrite Nat.add_0_r in Hfree.
    destruct fuel; cbn [unique_name]; fold (in_uploads (candidate base ext c));
      rewrite Hfree; rewrite Nat.add_0_r; reflexivity.
  - destruct fuel as [|fuel]; [lia|].
    cbn [unique_name]. fold (in_uploads (candidate base ext c)).
    pose proof (Hbusy 0 ltac:(lia)) as H0. rewrite Nat.add_0_r in H0. rewrite H0.
    fold (candidate base ext (S c)).
    rewrite (IH fuel (S c)).
    + f_equal. f_equal. lia.
    + lia.
    + intros j Hj. replace (S c + j) with (c + S j) by lia. apply Hbusy. lia.
    + replace (S c + k) with (c + S k) by lia. exact Hfree.
Qed.

(** X3. When the sanitized name is taken, the loop returns the name with
    the first suffix [_1], [_2], ... that is free. *)
Theorem unique_name_takes_first_free_suffix :
  forall w base ext filename k fuel,
    k <= fuel ->
    path_exists w (in_uploads filename) = true ->
    (forall j, j < k ->
       path_exists w (in_uploads (candidate base ext (1 + j))) = true) ->
    path_exists w (in_uploads (candidate base ext (1 + k))) = false ->
    unique_name (S fuel) w base ext filename 1
    = Some (candidate base ext (1 + k)).
Proof.
  intros w base ext filename k fuel Hk Hex Hbusy Hfree.
  cbn [unique_name]. fold (in_uploads filename). rewrite Hex.
  fold (candidate base ext 1).
  apply unique_name_from_candidate; assumption.
Qed.



Lemma dict_set_pairs (P : string * pyval -> Prop) (d : dict) k v :
  Forall P d -> P (k, v) -> Forall P (dict_set d k v).
Proof.
  intros Hd Hv. induction d as [|[k' v'] d IH]; simpl.
  - constructor; [exact Hv|constructor].
  - inversion Hd; subst. destruct (String.eqb k' k) eqn:E.
    + apply String.eqb_eq in E. subst k'. constructor; assumption.
    + constructor; auto.
Qed.



(** X5. When [library.json] cannot be opened for writing, [save_library]
    never reports success and leaves the world as it was. *)
Theorem save_library_unwritable_changes_nothing :
  forall data w,
    library_writable w = false ->
    snd (save_library data w) = w /\
    forall d, fst (save_library data w) <> Returns (true, d).
Proof.
  intros data w Hw. unfold save_library.
  destruct (save_prepare data) as [[to_write callers]|e].
  - rewrite Hw. split; [reflexivity|]. intros d. cbn. discriminate.
  - destruct e; (split; [reflexivity|intros d; cbn; discriminate]).
Qed.

(** X6. When [songs] is present but no dict, the correction of the
    structure keeps it, and [save_library] ends in the [AttributeError] of
    [.items()], which neither [except] catches; nothing is written. *)
Theorem save_library_raises_when_songs_is_no_dict :
  forall top v w,
    dict_get top "songs" = Some v ->
    is_dict v = false ->
    save_library (PDict top) w = (Raises AttributeError, w).
Proof.
  intros top v w Hs Hv. unfold save_library, save_prepare.
  cbn [py_contains obind]. unfold dict_has. rewrite Hs.
  cbn [py_getitem obind]. rewrite Hs. cbn [obind]. rewrite Hv.
  cbn [py_get obind]. rewrite Hs. cbn [dict_get String.eqb Ascii.eqb Bool.eqb].
  destruct v; try discriminate; reflexivity.
Qed.

Lemma dict_get_set_other (d : dict) k k' v :
  String.eqb k k' = false -> dict_get (dict_set d k v) k' = dict_get d k'.
Proof.
  intros Hk. induction d as [|[k0 v0] d IH]; simpl.
  - rewrite Hk. reflexivity.
  - destruct (String.eqb k0 k) eqn:E; simpl.
    + apply String.eqb_eq in E. subst k0. rewrite Hk. reflexivity.
    + rewrite IH. reflexivity.
Qed.

Lemma dict_has_set_other (d : dict) k k' v :
  String.eqb k k' = false -> dict_has (dict_set d k v) k' = dict_has d k'.
Proof. intros H. unfold dict_has. rewrite dict_get_set_other by exact H. reflexivity. Qed.

Section LoadSteady.

Variable uuid4 : nat -> string.
Variable container_repr : pyval -> string.
Hypothesis uuid4_long : forall n, Nat.leb 10 (String.length (uuid4 n)) = true.

Lemma normalize_record_result key v ns w id sd ns' w' :
  normalize_record uuid4 container_repr key v ns w = (Returns (id, sd, ns'), w') ->
  steady_record id (PDict sd) = true /\
  (ns' = false -> ns = false /\ w' = w) /\
  (w' = w \/ w' = bump_uuid w).
Proof.
  unfold normalize_record, bind, lift.
  destruct (py_items v) as [sd0|]; [|discriminate].
  set (song_id0 := match dict_get sd0 "id" with Some v0 => v0 | None => PStr key end).
  assert (Hfirst : exists s b w1,
    (match usable_id song_id0 with
     | Some s => ret (s, ns)
     | None => fun w0 => match fresh_uuid uuid4 w0 with
                         | (Returns a, w'0) => ret (a, true) w'0
                         | (Raises e, w'0) => (Raises e, w'0)
                         end
     end) w = (Returns (s, b), w1) /\
    Nat.leb 10 (String.length s) = true /\
    (b = false -> ns = false /\ w1 = w) /\ (w1 = w \/ w1 = bump_uuid w)).
  { destruct (usable_id song_id0) as [s|] eqn:Eu.
    - exists s, ns, w. split; [reflexivity|]. split; [|split; [auto|left; reflexivity]].
      unfold usable_id in Eu. destruct song_id0; try discriminate.
      destruct (Nat.leb 10 (String.length s0)) eqn:El; [|discriminate].
      injection Eu as <-. exact El.
    - exists (uuid4 (uuid_count w)), true, (bump_uuid w).
      split; [reflexivity|]. split; [apply uuid4_long|].
      split; [discriminate|right; reflexivity]. }
  destruct Hfirst as (s & b & w1 & -> & Hlen & Hb & Hw1).
  set (r1 := match dict_get sd0 "id" with
             | Some (PStr s0) =>
                 if String.eqb s0 s then (sd0, b)
                 else (dict_set sd0 "id" (PStr s), true)
             | _ => (dict_set sd0 "id" (PStr s), true)
             end).
  assert (H1 : dict_get (fst r1) "id" = Some (PStr s) /\ (snd r1 = false -> b = false)).
  { subst r1. destruct (dict_get sd0 "id") as [[| | |s0| |]|] eqn:Eid;
      try (cbn [fst snd]; split; [apply dict_get_set_eq|discriminate]).
    destruct (String.eqb s0 s) eqn:Es; cbn [fst snd].
    - apply String.eqb_eq in Es. subst s0. split; [exact Eid|auto].
    - split; [apply dict_get_set_eq|discriminate]. }
  destruct r1 as [sd1 b1]. cbn [fst snd] in H1. destruct H1 as [Hid1 Hb1].
  set (r2 := match dict_get sd1 "audioSrc", dict_get sd1 "filename" with
             | None, Some filename =>
                 (dict_set sd1 "audioSrc"
                    (PStr ("/uploads/" ++ py_str container_repr filename)), true)
             | _, _ => (sd1, b1)
             end).
  assert (H2 : dict_get (fst r2) "id" = Some (PStr s) /\
               (dict_has (fst r2) "audioSrc" || negb (dict_has (fst r2) "filename")) = true /\
               (snd r2 = false -> b1 = false)).
  { subst r2. unfold dict_has.
    destruct (dict_get sd1 "audioSrc") as [a|] eqn:Ea.
    - cbn [fst snd]. rewrite Ea. auto.
    - destruct (dict_get sd1 "filename") as [f|] eqn:Ef; cbn [fst snd].
      + rewrite dict_get_set_eq. rewrite dict_get_set_other by reflexivity.
        split; [exact Hid1|split; [reflexivity|discriminate]].
      + rewrite Ea, Ef. auto. }
  destruct r2 as [sd2 b2]. cbn [fst snd] in H2. destruct H2 as (Hid2 & Haud2 & Hb2).
  unfold ret, raise.
  assert (Hfin : forall sd3 b3,
     dict_get sd3 "id" = Some (PStr s) ->
     (dict_has sd3 "audioSrc" || negb (dict_has sd3 "filename")) = true ->
     cover_settled (dict_get sd3 "coverSrc") = true ->
     (b3 = false -> b2 = false) ->
     steady_record s (PDict sd3) = true /\
     (b3 = false -> ns = false /\ w1 = w) /\ (w1 = w \/ w1 = bump_uuid w)).
  { intros sd3 b3 Hi Ha Hc Hb3. split; [|split; [|exact Hw1]].
    - unfold steady_record. rewrite Hi, String.eqb_refl, Hlen, Ha, Hc. reflexivity.
    - intros E. apply Hb, Hb1, Hb2, Hb3, E. }
  destruct (dict_get sd2 "coverSrc") as [c|] eqn:Ec.
  - destruct (truthy c) eqn:Et.
    + destruct c; try discriminate.
      destruct (Str.startswith s0 "/") eqn:Es; intros [= <- <- <- <-].
      * apply Hfin; auto. unfold cover_settled. rewrite Ec, Et. exact Es.
      * apply Hfin; [| | |discriminate].
        -- rewrite dict_get_set_other by reflexivity. exact Hid2.
        -- rewrite !dict_has_set_other by reflexivity. exact Haud2.
        -- rewrite dict_get_set_eq. reflexivity.
    + intros [= <- <- <- <-]. apply Hfin; auto.
      unfold cover_settled. rewrite Ec, Et. reflexivity.
  - intros [= <- <- <- <-]. apply Hfin; auto.
    unfold cover_settled. rewrite Ec. reflexivity.
Qed.


Lemma normalize_record_steady key v ns w :
  steady_record key v = true ->
  exists sd, v = PDict sd /\
    normalize_record uuid4 container_repr key v ns w = (Returns (key, sd, ns), w).
Proof.
  unfold steady_record. destruct v as [| | | | |sd]; try discriminate.
  intros H. exists sd. split; [reflexivity|].
  apply andb_prop in H as [H Hcov]. apply andb_prop in H as [Hid Haud].
  destruct (dict_get sd "id") as [[| | |s| |]|] eqn:Eid; try discriminate.
  apply andb_prop in Hid as [Hk Hlen]. apply String.eqb_eq in Hk. subst s.
  unfold normalize_record, bind, lift, ret. cbn [py_items].
  rewrite Eid. cbn [usable_id]. rewrite Hlen. rewrite String.eqb_refl.
  assert (Ha : dict_get sd "audioSrc" <> None \/
               (dict_get sd "audioSrc" = None /\ dict_get sd "filename" = None)).
  { unfold dict_has in Haud. destruct (dict_get sd "audioSrc"); [left; discriminate|].
    destruct (dict_get sd "filename"); [discriminate|right; auto]. }
  unfold cover_settled in Hcov.
  destruct Ha as [Ha|[Ha Hf]];
    [destruct (dict_get sd "audioSrc"); [|contradiction]|rewrite Ha, Hf].
  all: destruct (dict_get sd "coverSrc") as [c|] eqn:Ec; [|reflexivity].
  all: destruct (truthy c); [|reflexivity].
  all: destruct c; try discriminate; rewrite Hcov; reflexivity.
Qed.

Lemma load_loop_steady items : forall ns acc w,
  steady_songs items = true ->
  load_loop uuid4 container_repr items ns acc w
  = (Returns (ns, refile items acc), w).
Proof.
  induction items as [|[key v] items IH]; intros ns acc w H; [reflexivity|].
  simpl in H. apply andb_prop in H as [Hr Hrest].
  destruct (normalize_record_steady key v ns w Hr) as (sd & -> & Hn).
  cbn [load_loop]. unfold bind at 1. rewrite Hn.
  rewrite IH by assumption. reflexivity.
Qed.

Lemma load_parsed_steady top songs w :
  dict_get top "songs" = Some (PDict songs) ->
  steady_songs songs = true ->
  load_parsed uuid4 container_repr (PDict top) w =
    (Returns (PDict (dict_set top "songs" (PDict (refile songs [])))), w).
Proof.
  intros Hs Hn. unfold load_parsed, bind, lift, ret.
  cbn [py_contains]. unfold dict_has. rewrite Hs.
  cbn [py_getitem]. rewrite Hs. cbn [is_dict py_get]. rewrite Hs.
  cbn [py_items]. rewrite load_loop_steady by assumption.
  reflexivity.
Qed.


Lemma dict_set_keys_nodup (d : dict) k v :
  NoDup (dict_keys d) -> NoDup (dict_keys (dict_set d k v)).
Proof.
  induction d as [|[k' v'] d IH]; simpl; intros H.
  - constructor; [intros []|constructor].
  - destruct (String.eqb k' k) eqn:E; [exact H|].
    cbn [dict_keys map fst]. inversion H as [|? ? Hn Hd]; subst.
    constructor; [|apply IH; exact Hd].
    intros Hin. apply Hn. clear - Hin E.
    induction d as [|[k0 v0] d IHd]; simpl in *.
    + destruct Hin as [<-|[]]. rewrite String.eqb_refl in E. discriminate.
    + destruct (String.eqb k0 k) eqn:E0; simpl in Hin; [exact Hin|].
      destruct Hin as [H|H]; [left; exact H|right; apply IHd; exact H].
Qed.

Lemma load_loop_result items : forall ns acc w ns' out w',
  Forall steady_pair acc -> NoDup (dict_keys acc) ->
  load_loop uuid4 container_repr items ns acc w = (Returns (ns', out), w') ->
  Forall steady_pair out /\ NoDup (dict_keys out) /\
  (ns' = false -> ns = false /\ w' = w) /\
  same_disk w w'.
Proof.
  induction items as [|[key v] items IH]; intros ns acc w ns' out w' Hacc Hnd H.
  - cbn in H. injection H as <- <- <-.
    repeat split; auto.
  - cbn [load_loop] in H. unfold bind at 1 in H.
    destruct (normalize_record uuid4 container_repr key v ns w)
      as [[[[id sd] b]|e] w1] eqn:En; [|discriminate].
    destruct (normalize_record_result _ _ _ _ _ _ _ _ En) as (Hst & Hb & Hw).
    destruct (IH _ _ _ _ _ _
                (dict_set_pairs steady_pair acc id (PDict sd) Hacc Hst)
                (dict_set_keys_nodup acc id (PDict sd) Hnd) H)
      as (Hout & Hnd' & Hb' & Hdisk).
    split; [exact Hout|]. split; [exact Hnd'|]. split.
    + intros E. destruct (Hb' E) as [E1 ->]. apply Hb. exact E1.
    + destruct Hw as [->| ->]; [exact Hdisk|].
      unfold same_disk in *. cbn in Hdisk. exact Hdisk.
Qed.


Lemma steady_songs_Forall songs :
  Forall steady_pair songs -> steady_songs songs = true.
Proof.
  intros H. unfold steady_songs. apply forallb_forall.
  rewrite Forall_forall in H. exact H.
Qed.

Lemma save_loop_steady items : forall acc,
  steady_songs items = true ->
  save_loop items acc = Returns (refile items acc).
Proof.
  induction items as [|[key v] items IH]; intros acc H; [reflexivity|].
  simpl in H. apply andb_prop in H as [Hr Hrest].
  unfold steady_record in Hr.
  destruct v as [| | | | |sd]; try discriminate.
  apply andb_prop in Hr as [Hr _]. apply andb_prop in Hr as [Hid _].
  destruct (dict_get sd "id") as [[| | |s| |]|] eqn:Eid; try discriminate.
  apply andb_prop in Hid as [Hk _]. apply String.eqb_eq in Hk. subst s.
  cbn [save_loop]. rewrite Eid. cbn [hash_key obind].
  rewrite IH by assumption. reflexivity.
Qed.

Lemma save_library_steady top songs w :
  dict_get top "songs" = Some (PDict songs) ->
  steady_songs songs = true ->
  NoDup (dict_keys songs) ->
  save_library (PDict top) w =
    if library_writable w
    then (Returns (true, PDict top), write_library w (PDict top))
    else (Returns (false, PDict top), w).
Proof.
  intros Hs Hn Hnd. unfold save_library, save_prepare.
  cbn [py_contains obind]. unfold dict_has. rewrite Hs.
  cbn [py_getitem obind]. rewrite Hs. cbn [is_dict obind py_get]. rewrite Hs.
  cbn [py_items obind]. rewrite save_loop_steady by assumption.
  cbn [obind py_setitem].
  rewrite refile_nodup by exact Hnd. cbn [app].
  rewrite dict_get_set_same by exact Hs. reflexivity.
Qed.

Lemma load_library_steady w top songs :
  library_file w = Holds (PDict top) ->
  dict_get top "songs" = Some (PDict songs) ->
  steady_songs songs = true ->
  NoDup (dict_keys songs) ->
  load_library uuid4 container_repr w = (Returns (PDict top), w).
Proof.
  intros Hf Hs Hn Hnd. unfold load_library. rewrite Hf.
  rewrite (load_parsed_steady top songs w Hs Hn).
  rewrite refile_nodup by exact Hnd. cbn [app].
  rewrite dict_get_set_same by exact Hs. reflexivity.
Qed.

(** What a load that returns has done: nothing at all, or it has written
    the catalog it returns, whose records are steady under distinct keys. *)
Lemma load_library_outcome w data w1 :
  load_library uuid4 container_repr w = (Returns data, w1) ->
  exists top songs,
    data = PDict top /\ dict_get top "songs" = Some (PDict songs) /\
    Forall steady_pair songs /\ NoDup (dict_keys songs) /\
    (w1 = w \/
     exists w0, same_disk w w0 /\
       w1 = if library_writable w then write_library w0 data else w0).
Proof.
  unfold load_library.
  destruct (library_file w) as [| | | |v] eqn:Ef; try discriminate.
  1-3: intros [= <- <-]; exists [("songs", PDict [])], [];
       (split; [reflexivity|]); (split; [reflexivity|]);
       (split; [apply Forall_nil|]); (split; [apply NoDup_nil|]);
       left; reflexivity.
  destruct v as [| | | | |top];
    try (rewrite load_parsed_not_object by reflexivity; discriminate).
  destruct (dict_get top "songs") as [sv|] eqn:Es.
  2: { rewrite load_parsed_without_songs by (rewrite Es; exact I).
       intros [= <- <-]. eexists _, []. split; [reflexivity|].
       split; [apply dict_get_set_eq|].
       split; [apply Forall_nil|]. split; [apply NoDup_nil|].
       left; reflexivity. }
  destruct sv as [| | | | |songs].
  1-5: rewrite load_parsed_without_songs by (rewrite Es; exact I);
       intros [= <- <-]; eexists _, []; (split; [reflexivity|]);
       (split; [apply dict_get_set_eq|]);
       (split; [apply Forall_nil|]); (split; [apply NoDup_nil|]);
       left; reflexivity.
  unfold load_parsed, bind, lift, ret.
  cbn [py_contains]. unfold dict_has. rewrite Es.
  cbn [py_getitem]. rewrite Es. cbn [is_dict py_get]. rewrite Es.
  cbn [py_items].
  destruct (load_loop uuid4 container_repr songs false [] w)
    as [[[ns upd]|] w3] eqn:El; [|discriminate].
  destruct (load_loop_result songs false [] w ns upd w3
              (Forall_nil _) (NoDup_nil _) El) as (Hupd & Hnd & Hns & Hdisk).
  cbn [py_setitem].
  destruct ns.
  - assert (Hw3 : library_writable w3 = library_writable w)
      by (destruct Hdisk as (_ & -> & _); reflexivity).
    rewrite (save_library_steady (dict_set top "songs" (PDict upd)) upd w3
               (dict_get_set_eq _ _ _) (steady_songs_Forall _ Hupd) Hnd).
    rewrite Hw3.
    destruct (library_writable w) eqn:Hw; intros [= <- <-];
      (eexists _, upd; split; [reflexivity|];
       split; [apply dict_get_set_eq|]; split; [exact Hupd|];
       split; [exact Hnd|]; right; exists w3; split; [exact Hdisk|reflexivity]).
  - destruct (Hns eq_refl) as [_ ->]. intros [= <- <-].
    eexists _, upd. split; [reflexivity|].
    split; [apply dict_get_set_eq|]. split; [exact Hupd|]. split; [exact Hnd|].
    left; reflexivity.
Qed.

(** X7. With a writable catalog file, a load that returns leaves the
    file in a state the next load returns unchanged and does not write:
    the second load gives the same catalog and the same world. *)
Theorem load_library_twice :
  forall w data w1,
    library_writable w = true ->
    load_library uuid4 container_repr w = (Returns data, w1) ->
    load_library uuid4 container_repr w1 = (Returns data, w1).
Proof.
  intros w data w1 Hw Hl.
  destruct (load_library_outcome w data w1 Hl)
    as (top & songs & -> & Hs & Hst & Hnd & [->|(w0 & Hdisk & ->)]).
  - exact Hl.
  - rewrite Hw. apply (load_library_steady _ top songs);
      [reflexivity|exact Hs|apply steady_songs_Forall; exact Hst|exact Hnd].
Qed.

(** X8. In every catalog [load_library] returns, the keys are distinct
    and each record is a dict whose [id] is the key it is filed under, a
    string of at least ten characters. *)
Theorem load_library_files_records_by_id :
  forall w data w1 songs,
    load_library uuid4 container_repr w = (Returns data, w1) ->
    catalog_songs data = Some songs ->
    NoDup (dict_keys songs) /\
    forall key v, In (key, v) songs ->
      exists sd, v = PDict sd /\ dict_get sd "id" = Some (PStr key) /\
                 10 <= String.length key.
Proof.
  intros w data w1 songs Hl Hc.
  destruct (load_library_outcome w data w1 Hl)
    as (top & songs' & -> & Hs & Hst & Hnd & _).
  cbn in Hc. rewrite Hs in Hc. injection Hc as <-.
  split; [exact Hnd|]. intros key v Hin.
  rewrite Forall_forall in Hst. specialize (Hst _ Hin).
  unfold steady_pair, steady_record in Hst. cbn [fst snd] in Hst.
  destruct v as [| | | | |sd]; try discriminate. exists sd.
  split; [reflexivity|].
  apply andb_prop in Hst as [Hst _]. apply andb_prop in Hst as [Hid _].
  destruct (dict_get sd "id") as [[| | |s| |]|]; try discriminate.
  apply andb_prop in Hid as [Hk Hlen]. apply String.eqb_eq in Hk. subst s.
  split; [reflexivity|]. apply Nat.leb_le. exact Hlen.
Qed.


Lemma same_media_refl w : same_media w w.
Proof. repeat split. Qed.

Lemma same_media_trans w1 w2 w3 :
  same_media w1 w2 -> same_media w2 w3 -> same_media w1 w3.
Proof.
  unfold same_media. intros (A & B & C & D) (A' & B' & C' & D').
  repeat split; congruence.
Qed.

Lemma normalize_record_media key v ns w :
  same_media w (snd (normalize_record uuid4 container_repr key v ns w)).
Proof.
  unfold normalize_record, bind, lift, ret, raise, fresh_uuid.
  destruct (py_items v) as [sd0|]; [|apply same_media_refl].
  destruct (usable_id _) as [s|]; cbv beta iota;
    do 2 match goal with
         | |- context [let '(_, _) := ?e in _] => destruct e
         end;
    (destruct (dict_get _ "coverSrc") as [c|];
       [destruct (truthy c);
          [destruct c; try destruct (Str.startswith _ _)|]|]);
    repeat split.
Qed.

Lemma load_loop_media items : forall ns acc w,
  same_media w (snd (load_loop uuid4 container_repr items ns acc w)).
Proof.
  induction items as [|[key v] items IH]; intros ns acc w;
    [apply same_media_refl|].
  cbn [load_loop]. unfold bind at 1.
  pose proof (normalize_record_media key v ns w) as H.
  destruct (normalize_record uuid4 container_repr key v ns w)
    as [[[[id sd] b]|e] w1]; cbn [snd] in H; [|exact H].
  eapply same_media_trans; [exact H|apply IH].
Qed.

Lemma save_library_media data w :
  same_media w (snd (save_library data w)).
Proof.
  unfold save_library.
  destruct (save_prepare data) as [[to_write callers]|e].
  - destruct (library_writable w); repeat split.
  - destruct e; repeat split.
Qed.

Lemma load_parsed_media v w :
  same_media w (snd (load_parsed uuid4 container_repr v w)).
Proof.
  unfold load_parsed, bind, lift, ret.
  destruct (py_contains v "songs") as [has|]; [|apply same_media_refl].
  match goal with
  | |- context [match ?c w with _ => _ end] =>
      assert (Hc : snd (c w) = w)
        by (destruct has; [destruct (py_getitem v "songs")|]; reflexivity);
      destruct (c w) as [[ok|] w1]; cbn [snd] in Hc; subst w1;
      [|apply same_media_refl]
  end.
  match goal with
  | |- context [match ?c w with _ => _ end] =>
      assert (Hc : snd (c w) = w) by (destruct ok; reflexivity);
      destruct (c w) as [[d1|] w1]; cbn [snd] in Hc; subst w1;
      [|apply same_media_refl]
  end.
  destruct (py_get d1 "songs" (PDict [])) as [sv|]; [|apply same_media_refl].
  destruct (py_items sv) as [items|]; [|apply same_media_refl].
  pose proof (load_loop_media items false [] w) as Hl.
  destruct (load_loop uuid4 container_repr items false [] w)
    as [[[ns upd]|] w3]; cbn [snd] in Hl; [|exact Hl].
  destruct (py_setitem d1 "songs" (PDict upd)) as [d2|]; [|exact Hl].
  destruct ns; [|exact Hl].
  pose proof (save_library_media d2 w3) as Hs.
  destruct (save_library d2 w3) as [[[ok' d3]|] w4]; cbn [snd] in Hs |- *;
    eapply same_media_trans; eassumption.
Qed.

Lemma load_library_media :
  forall w, same_media w (snd (load_library uuid4 container_repr w)).
Proof.
  intros w. unfold load_library.
  destruct (library_file w) as [| | | |v];
    [apply same_media_refl ..|apply load_parsed_media].
Qed.

(** X9. Whether it returns or raises, [load_library] leaves the media
    files, the directories and the locks as they were. *)
Theorem load_library_leaves_media_alone :
  forall w, same_media w (snd (load_library uuid4 container_repr w)).
Proof.
  intros w. unfold load_library.
  destruct (library_file w) as [| | | |v] eqn:Ef.
  - apply same_media_refl.
  - apply same_media_refl.
  - apply same_media_refl.
  - apply same_media_refl.
  - apply load_parsed_media.
Qed.

End LoadSteady.

Section ResolverMore.

Variable MUTAGEN_AVAILABLE : bool.
Variable EasyID3 : string -> easy_result.
Variable MP3 : string -> mp3_result.


Lemma manual_or_final manual sentinel m :
  sentinel <> EmptyString -> sentinel <> "Unknown Artist" ->
  (let m' := with_artist m (manual_or manual sentinel) in
   if String.eqb (md_artist m') EmptyString || String.eqb (md_artist m') "Unknown Artist"
   then with_artist m' (manual_or manual "Unknown Artist") else m')
  = with_artist m (manual_or manual sentinel).
Proof.
  intros H1 H2. cbv zeta. cbn [md_artist with_artist].
  unfold manual_or. destruct (given manual) as [a|]; cbn [md_artist].
  - destruct (_ || _); reflexivity.
  - destruct (String.eqb sentinel EmptyString) eqn:E1;
      [apply String.eqb_eq in E1; contradiction|].
    destruct (String.eqb sentinel "Unknown Artist") eqn:E2;
      [apply String.eqb_eq in E2; contradiction|].
    reflexivity.
Qed.

(** X10. When tag reading is not installed or the audio file is not in
    place, the resolver reads no tags: the record is the seed with the
    uploaded cover, if one was stored, and as artist the manual artist or
    else the sentinel for the missing capability or file; no other file is
    written. *)
Theorem resolver_without_tags :
  forall mp3 song_id manual cover w,
    MUTAGEN_AVAILABLE
    && path_is_file
         (snd (save_uploaded_cover song_id cover (seed_metadata mp3 song_id) w))
         (path_join (Path UPLOAD_FOLDER) mp3) = false ->
    get_song_metadata MUTAGEN_AVAILABLE EasyID3 MP3 mp3 song_id manual cover w
    = (with_artist
         (fst (fst (save_uploaded_cover song_id cover (seed_metadata mp3 song_id) w)))
         (manual_or manual (missing_artist MUTAGEN_AVAILABLE)),
       snd (save_uploaded_cover song_id cover (seed_metadata mp3 song_id) w)).
Proof.
  intros mp3 song_id manual cover w H. unfold get_song_metadata.
  destruct (save_uploaded_cover song_id cover (seed_metadata mp3 song_id) w)
    as [[m1 cover_saved] w1]. cbn [fst snd] in *. rewrite H.
  unfold missing_artist.
  destruct MUTAGEN_AVAILABLE; cbn [negb];
    rewrite manual_or_final by discriminate; reflexivity.
Qed.

(** X11. An uploaded cover with an allowed extension that could be
    stored is the cover of the record, under [/covers/<id>.<ext>] with the
    extension in lower case, and the embedded pictures are not written. *)
Theorem uploaded_cover_wins :
  forall mp3 song_id manual f w w1,
    fs_filename f <> EmptyString ->
    allowed_cover_file (fs_filename f) = true ->
    write_file w
      (path_join (Path COVERS_FOLDER)
         (song_id ++ "." ++ Str.lower (Str.after_last "." (fs_filename f))))
      (fs_bytes f) = Some w1 ->
    let r := get_song_metadata MUTAGEN_AVAILABLE EasyID3 MP3
               mp3 song_id manual (Some f) w in
    md_coverSrc (fst r)
      = Some ("/covers/" ++ song_id ++ "."
              ++ Str.lower (Str.after_last "." (fs_filename f))) /\
    snd r = w1.
Proof.
  intros mp3 song_id manual f w w1 Hname Hallowed Hwrite r. subst r.
  unfold get_song_metadata, save_uploaded_cover.
  destruct (String.eqb (fs_filename f) EmptyString) eqn:E;
    [apply String.eqb_eq in E; contradiction|].
  cbn [negb andb]. rewrite Hallowed, Hwrite.
  destruct (MUTAGEN_AVAILABLE && path_is_file w1 _).
  - cbn [negb]. destruct (_ || _); cbn [fst snd md_coverSrc with_artist];
      rewrite read_basic_coverSrc; split; reflexivity.
  - destruct (negb MUTAGEN_AVAILABLE); destruct (_ || _);
      cbn [fst snd md_coverSrc with_artist]; split; reflexivity.
Qed.

End ResolverMore.

Lemma os_remove_library w p w' : os_remove w p = Some w' -> same_library w w'.
Proof.
  unfold os_remove. destruct (locate w p); [|discriminate].
  destruct (_ && _); [|discriminate]. intros [= <-]. repeat split.
Qed.

Lemma delete_audio_library filename w :
  same_library w (snd (delete_audio filename w)).
Proof.
  unfold delete_audio, ret, raise.
  destruct (truthy filename); [|repeat split].
  destruct filename; try (repeat split; fail).
  destruct (_ && _); [|repeat split].
  destruct (Str.startswith _ _); [|repeat split].
  destruct (os_remove w _) eqn:E; [|repeat split].
  cbn [snd]. eapply os_remove_library; exact E.
Qed.

Lemma delete_cover_library cover_src w :
  same_library w (snd (delete_cover cover_src w)).
Proof.
  unfold delete_cover, ret, raise.
  destruct (truthy cover_src); [|repeat split].
  destruct cover_src; try (repeat split; fail).
  destruct (Str.startswith (Str.lstrip "/" s) _); [|repeat split].
  destruct (_ && _); [|repeat split].
  destruct (Str.startswith _ _); [|repeat split].
  destruct (os_remove w _) eqn:E; [|repeat split].
  cbn [snd]. eapply os_remove_library; exact E.
Qed.

Lemma dict_del_has (d : dict) k :
  NoDup (dict_keys d) -> dict_has (dict_del d k) k = false.
Proof.
  unfold dict_has. induction d as [|[k' v'] d IH]; simpl; [reflexivity|].
  intros H. inversion H as [|? ? Hn Hd]; subst.
  destruct (String.eqb k' k) eqn:E.
  - apply String.eqb_eq in E. subst k'.
    rewrite dict_get_notin by exact Hn. reflexivity.
  - simpl. rewrite E. apply IH. exact Hd.
Qed.

Lemma dict_del_incl (d : dict) k kv : In kv (dict_del d k) -> In kv d.
Proof.
  induction d as [|[k' v'] d IH]; simpl; [auto|].
  destruct (String.eqb k' k); simpl; [auto|]. intros [H|H]; auto.
Qed.

Lemma dict_del_keys_nodup (d : dict) k :
  NoDup (dict_keys d) -> NoDup (dict_keys (dict_del d k)).
Proof.
  induction d as [|[k' v'] d IH]; simpl; intros H; [constructor|].
  inversion H as [|? ? Hn Hd]; subst.
  destruct (String.eqb k' k); [exact Hd|].
  cbn [dict_keys map fst]. constructor; [|apply IH; exact Hd].
  intros Hin. apply Hn. unfold dict_keys in *.
  apply in_map_iff in Hin as ([k0 v0] & <- & Hin).
  apply in_map_iff. exists (k0, v0). split; [reflexivity|].
  eapply dict_del_incl; exact Hin.
Qed.

Lemma dict_del_steady (d : dict) k :
  Forall steady_pair d -> Forall steady_pair (dict_del d k).
Proof.
  intros H. rewrite Forall_forall in *. intros kv Hin.
  apply H. eapply dict_del_incl; exact Hin.
Qed.

Lemma dict_get_In (d : dict) k v : dict_get d k = Some v -> In (k, v) d.
Proof.
  induction d as [|[k' v'] d IH]; simpl; [discriminate|].
  destruct (String.eqb k' k) eqn:E.
  - apply String.eqb_eq in E. subst k'. intros [= ->]. left; reflexivity.
  - intros H. right. apply IH. exact H.
Qed.

Section DeleteMore.

Variable uuid4 : nat -> string.
Variable container_repr : pyval -> string.
Hypothesis uuid4_long : forall n, Nat.leb 10 (String.length (uuid4 n)) = true.

(** The handler once the catalog is loaded, the record found and both
    slots have answered. *)
Lemma delete_song_after_slots w song_id top songs info w1 a w2 c w3 :
  load_library uuid4 container_repr w = (Returns (PDict top), w1) ->
  dict_get top "songs" = Some (PDict songs) ->
  dict_get songs song_id = Some (PDict info) ->
  delete_audio (field info "filename") w1 = (Returns a, w2) ->
  delete_cover (field info "coverSrc") w2 = (Returns c, w3) ->
  delete_song uuid4 container_repr song_id w =
    if a && c then
      match save_library
              (PDict (dict_set top "songs" (PDict (dict_del songs song_id)))) w3 with
      | (Returns (true, _), w4) =>
          (Returns (deleted_body container_repr info song_id, 200), w4)
      | (Returns (false, _), w4) =>
          (Returns (error_body "Files deleted, but failed to update library metadata. Please check manually.", 500), w4)
      | (Raises e, w4) => (Raises e, w4)
      end
    else (Returns (error_body (deletion_error a c), 500), w3).
Proof.
  intros Hload Hsongs Hinfo Haudio Hcover.
  unfold delete_song, bind, lift, ret. rewrite Hload.
  cbn [py_get]. rewrite Hsongs. cbn [py_contains]. unfold dict_has.
  rewrite Hinfo. cbn [negb py_getitem]. rewrite Hsongs. cbn [py_getitem].
  rewrite Hinfo. cbn [py_get].
  fold (field info "filename"). fold (field info "coverSrc").
  rewrite Haudio, Hcover.
  destruct (a && c); [|reflexivity].
  cbn [py_items py_setitem].
  destruct (save_library _ w3) as [[[[|] d]|e] w4]; reflexivity.
Qed.

(** X12. When the audio slot or the cover slot of [delete_song] fails,
    the handler answers 500 with the message for the slots that failed
    and [library.json] is as the load left it. *)
Theorem failed_removal_keeps_catalog :
  forall w song_id top songs info w1 a w2 c w3,
    load_library uuid4 container_repr w = (Returns (PDict top), w1) ->
    dict_get top "songs" = Some (PDict songs) ->
    dict_get songs song_id = Some (PDict info) ->
    delete_audio (field info "filename") w1 = (Returns a, w2) ->
    delete_cover (field info "coverSrc") w2 = (Returns c, w3) ->
    a && c = false ->
    delete_song uuid4 container_repr song_id w
      = (Returns (error_body (deletion_error a c), 500), w3) /\
    same_library w1 w3.
Proof.
  intros w song_id top songs info w1 a w2 c w3 Hl Hs Hi Ha Hc Hac.
  rewrite (delete_song_after_slots _ _ _ _ _ _ _ _ _ _ Hl Hs Hi Ha Hc), Hac.
  split; [reflexivity|].
  pose proof (delete_audio_library (field info "filename") w1) as H1.
  pose proof (delete_cover_library (field info "coverSrc") w2) as H2.
  rewrite Ha in H1. rewrite Hc in H2. cbn [snd] in *.
  unfold same_library in *. destruct H1 as (A & B & C & D).
  destruct H2 as (A' & B' & C' & D'). repeat split; congruence.
Qed.


(** A 200 from [delete_song], taken apart: the catalog that was loaded, and
    the world the answer leaves, which is the one after both slots with the
    catalog minus the entry written to it. *)
Lemma delete_song_success w song_id body w' :
  delete_song uuid4 container_repr song_id w = (Returns (body, 200), w') ->
  exists top songs w1 w3,
    load_library uuid4 container_repr w = (Returns (PDict top), w1) /\
    dict_get top "songs" = Some (PDict songs) /\
    Forall steady_pair songs /\ NoDup (dict_keys songs) /\
    w' = write_library w3
           (PDict (dict_set top "songs" (PDict (dict_del songs song_id)))).
Proof.
  intros H.
  destruct (load_library uuid4 container_repr w) as [[data|e] w1] eqn:Hl.
  2: { unfold delete_song, bind in H. rewrite Hl in H. discriminate. }
  destruct (load_library_outcome uuid4 container_repr uuid4_long w data w1 Hl)
    as (top & songs & -> & Hs & Hst & Hnd & _).
  destruct (dict_get songs song_id) as [v|] eqn:Hv.
  2: { unfold delete_song, bind, lift, ret in H. rewrite Hl in H.
       cbn [py_get] in H. rewrite Hs in H. cbn [py_contains] in H.
       unfold dict_has in H. rewrite Hv in H. discriminate. }
  pose proof (dict_get_In _ _ _ Hv) as Hin.
  pose proof Hst as Hst'. rewrite Forall_forall in Hst'.
  specialize (Hst' _ Hin). unfold steady_pair, steady_record in Hst'.
  cbn [fst snd] in Hst'. destruct v as [| | | | |info]; try discriminate.
  destruct (delete_audio (field info "filename") w1) as [[a|e] w2] eqn:Ha.
  2: { unfold delete_song, bind, lift, ret in H. rewrite Hl in H.
       cbn [py_get] in H. rewrite Hs in H. cbn [py_contains] in H.
       unfold dict_has in H. rewrite Hv in H.
       cbn [negb py_getitem] in H. rewrite Hs in H. cbn [py_getitem] in H.
       rewrite Hv in H. cbn [py_get] in H.
       fold (field info "filename") in H. rewrite Ha in H. discriminate. }
  destruct (delete_cover (field info "coverSrc") w2) as [[c|e] w3] eqn:Hc.
  2: { unfold delete_song, bind, lift, ret in H. rewrite Hl in H.
       cbn [py_get] in H. rewrite Hs in H. cbn [py_contains] in H.
       unfold dict_has in H. rewrite Hv in H.
       cbn [negb py_getitem] in H. rewrite Hs in H. cbn [py_getitem] in H.
       rewrite Hv in H. cbn [py_get] in H.
       fold (field info "filename") in H. fold (field info "coverSrc") in H.
       rewrite Ha, Hc in H. discriminate. }
  rewrite (delete_song_after_slots _ _ _ _ _ _ _ _ _ _ Hl Hs Hv Ha Hc) in H.
  destruct (a && c); [|discriminate].
  rewrite (save_library_steady
             (dict_set top "songs" (PDict (dict_del songs song_id)))
             (dict_del songs song_id) w3 (dict_get_set_eq _ _ _)
             (steady_songs_Forall _ (dict_del_steady _ _ Hst))
             (dict_del_keys_nodup _ _ Hnd)) in H.
  destruct (library_writable w3); [|discriminate].
  injection H as _ <-.
  exists top, songs, w1, w3. repeat split; assumption.
Qed.

Lemma load_after_commit top songs song_id w3 :
  Forall steady_pair songs -> NoDup (dict_keys songs) ->
  let kept := PDict (dict_set top "songs" (PDict (dict_del songs song_id))) in
  load_library uuid4 container_repr (write_library w3 kept)
  = (Returns kept, write_library w3 kept).
Proof.
  intros Hst Hnd kept.
  apply (load_library_steady uuid4 container_repr _
           (dict_set top "songs" (PDict (dict_del songs song_id)))
           (dict_del songs song_id));
    [reflexivity|apply dict_get_set_eq
    |apply steady_songs_Forall, dict_del_steady; exact Hst
    |apply dict_del_keys_nodup; exact Hnd].
Qed.

(** X13. After a DELETE answered 200, a second DELETE for the same
    identifier answers 404 and changes nothing. *)
Theorem second_delete_finds_nothing :
  forall w song_id body w',
    delete_song uuid4 container_repr song_id w = (Returns (body, 200), w') ->
    delete_song uuid4 container_repr song_id w'
    = (Returns (error_body "Song not found", 404), w').
Proof.
  intros w song_id body w' H.
  destruct (delete_song_success w song_id body w' H)
    as (top & songs & w1 & w3 & Hl & Hs & Hst & Hnd & ->).
  unfold delete_song, bind, lift, ret.
  rewrite (load_after_commit top songs song_id w3 Hst Hnd).
  cbn [py_get]. rewrite dict_get_set_eq. cbn [py_contains].
  rewrite dict_del_has by exact Hnd. reflexivity.
Qed.

(** X14. After a DELETE answered 200, [get_songs] lists the records of
    the catalog as it was loaded, without the deleted one, and changes
    nothing. *)
Theorem list_after_delete :
  forall w song_id body w' data w1 songs,
    delete_song uuid4 container_repr song_id w = (Returns (body, 200), w') ->
    load_library uuid4 container_repr w = (Returns data, w1) ->
    catalog_songs data = Some songs ->
    get_songs uuid4 container_repr w'
    = (Returns (PList (dict_values (dict_del songs song_id)), 200), w').
Proof.
  intros w song_id body w' data w1 songs H Hl Hc.
  destruct (delete_song_success w song_id body w' H)
    as (top & songs' & w1' & w3 & Hl' & Hs & Hst & Hnd & ->).
  rewrite Hl in Hl'. injection Hl' as -> _.
  cbn in Hc. rewrite Hs in Hc. injection Hc as <-.
  unfold get_songs, bind, lift, ret.
  rewrite (load_after_commit top songs' song_id w3 Hst Hnd).
  cbn [py_get]. rewrite dict_get_set_eq. reflexivity.
Qed.

(** X15. Deleting a song whose audio file is no longer on the disk and
    that has no cover succeeds: the handler answers 200, touches no media
    file, and the song is gone from the catalog. *)
Theorem delete_with_missing_audio :
  forall w song_id data w1 songs info f,
    library_writable w = true ->
    load_library uuid4 container_repr w = (Returns data, w1) ->
    catalog_songs data = Some songs ->
    dict_get songs song_id = Some (PDict info) ->
    dict_get info "filename" = Some (PStr f) ->
    path_is_file w1 (path_join (Path UPLOAD_FOLDER) f) = false ->
    truthy (field info "coverSrc") = false ->
    exists w',
      delete_song uuid4 container_repr song_id w
      = (Returns (deleted_body container_repr info song_id, 200), w') /\
      files w' = files w /\
      known_song uuid4 container_repr w' song_id = false.
Proof.
  intros w song_id data w1 songs info f Hw Hl Hc Hi Hf Hmiss Hcov.
  destruct (load_library_outcome uuid4 container_repr uuid4_long w data w1 Hl)
    as (top & songs' & -> & Hs & Hst & Hnd & Hw1).
  cbn in Hc. rewrite Hs in Hc. injection Hc as ->.
  assert (Ha : delete_audio (field info "filename") w1 = (Returns true, w1)).
  { unfold field. rewrite Hf. unfold delete_audio. cbn [truthy].
    destruct (negb (String.eqb f EmptyString)); [|reflexivity].
    rewrite Hmiss. rewrite andb_false_r. reflexivity. }
  assert (Hcv : delete_cover (field info "coverSrc") w1 = (Returns true, w1)).
  { unfold delete_cover. rewrite Hcov. reflexivity. }
  assert (Hmedia : files w1 = files w /\ library_writable w1 = true).
  { destruct Hw1 as [->|(w0 & Hd & ->)]; [auto|].
    rewrite Hw. destruct Hd as (_ & Hwr & _ & _ & _ & Hfi & _). cbn.
    rewrite Hfi, Hwr. auto. }
  destruct Hmedia as [Hfiles Hw1'].
  exists (write_library w1
            (PDict (dict_set top "songs" (PDict (dict_del songs song_id))))).
  rewrite (delete_song_after_slots _ _ _ _ _ _ _ _ _ _ Hl Hs Hi Ha Hcv).
  cbn [andb].
  rewrite (save_library_steady
             (dict_set top "songs" (PDict (dict_del songs song_id)))
             (dict_del songs song_id) w1 (dict_get_set_eq _ _ _)
             (steady_songs_Forall _ (dict_del_steady _ _ Hst))
             (dict_del_keys_nodup _ _ Hnd)).
  rewrite Hw1'. split; [reflexivity|]. split; [exact Hfiles|].
  unfold known_song. rewrite (load_after_commit top songs song_id w1 Hst Hnd).
  cbn [fst catalog_songs]. rewrite dict_get_set_eq.
  apply dict_del_has. exact Hnd.
Qed.

End DeleteMore.

Lemma write_file_library w p bytes w' :
  write_file w p bytes = Some w' -> same_library w w'.
Proof.
  unfold write_file. destruct (locate w p); [|discriminate].
  destruct (_ && _); [|discriminate]. intros [= <-]. repeat split.
Qed.

Lemma same_library_refl w : same_library w w.
Proof. repeat split. Qed.

Lemma same_library_trans w1 w2 w3 :
  same_library w1 w2 -> same_library w2 w3 -> same_library w1 w3.
Proof.
  unfold same_library. intros (A & B & C & D) (A' & B' & C' & D').
  repeat split; congruence.
Qed.

Lemma scan_tags_library tags : forall song_id w,
  same_library w (snd (scan_tags tags song_id w)).
Proof.
  induction tags as [|[name fr] tags IH]; intros song_id w;
    [apply same_library_refl|].
  cbn [scan_tags]. destruct (Str.startswith name "APIC"); [|apply IH].
  destruct (Str.mem _ _); [|apply IH].
  destruct (write_file w _ (data fr)) eqn:E; [|apply same_library_refl].
  cbn [snd]. eapply write_file_library; exact E.
Qed.

Lemma read_basic_id r manual m : md_id (read_basic r manual m) = md_id m.
Proof.
  unfold read_basic, basic_read_failed.
  repeat match goal with
         | |- context [match ?x with _ => _ end] => destruct x
         end; reflexivity.
Qed.

Section ResolverLibrary.

Variable MUTAGEN_AVAILABLE : bool.
Variable EasyID3 : string -> easy_result.
Variable MP3 : string -> mp3_result.

Lemma save_uploaded_cover_library song_id cover m w :
  same_library w (snd (save_uploaded_cover song_id cover m w)) /\
  md_id (fst (fst (save_uploaded_cover song_id cover m w))) = md_id m.
Proof.
  unfold save_uploaded_cover.
  destruct cover as [f|]; [|split; [apply same_library_refl|reflexivity]].
  destruct (_ && _); [|split; [apply same_library_refl|reflexivity]].
  destruct (write_file w _ (fs_bytes f)) eqn:E;
    [|split; [apply same_library_refl|reflexivity]].
  split; [eapply write_file_library; exact E|reflexivity].
Qed.

(** The resolver works on media files only, and the record carries the
    identifier it was given. *)
Lemma get_song_metadata_library mp3 song_id manual cover w :
  let r := get_song_metadata MUTAGEN_AVAILABLE EasyID3 MP3
             mp3 song_id manual cover w in
  same_library w (snd r) /\ md_id (fst r) = song_id.
Proof.
  cbv zeta. unfold get_song_metadata.
  pose proof (save_uploaded_cover_library song_id cover
                (seed_metadata mp3 song_id) w) as [Hl Hid].
  destruct (save_uploaded_cover song_id cover (seed_metadata mp3 song_id) w)
    as [[m1 cover_saved] w1]. cbn [fst snd] in Hl, Hid.
  cbn [md_id seed_metadata] in Hid.
  destruct (MUTAGEN_AVAILABLE && path_is_file w1 _).
  - destruct cover_saved; cbn [negb].
    + destruct (_ || _); cbn [fst snd md_id with_artist];
        rewrite read_basic_id; split; assumption.
    + destruct (open_mp3 MP3 w1 _) as [|tags].
      * destruct (_ || _); cbn [fst snd md_id with_artist];
          rewrite read_basic_id; split; assumption.
      * pose proof (scan_tags_library tags song_id w1) as Hs.
        destruct (scan_tags tags song_id w1) as [[c|] w2]; cbn [snd] in Hs;
          destruct (_ || _); cbn [fst snd md_id with_artist with_coverSrc];
          rewrite read_basic_id;
          (split; [eapply same_library_trans; eassumption|assumption]).
  - destruct (negb MUTAGEN_AVAILABLE); destruct (_ || _);
      cbn [fst snd md_id with_artist]; split; assumption.
Qed.

End ResolverLibrary.

Lemma resolver_record_steady song_id m :
  md_id m = song_id ->
  Nat.leb 10 (String.length song_id) = true ->
  resolver_cover song_id (md_coverSrc m) ->
  steady_record song_id (PDict (metadata_dict m)) = true.
Proof.
  intros Hid Hlen Hcov. unfold steady_record, metadata_dict.
  cbn [dict_get String.eqb Ascii.eqb Bool.eqb].
  rewrite Hid, String.eqb_refl, Hlen. cbn [andb].
  unfold dict_has. cbn [dict_get String.eqb Ascii.eqb Bool.eqb orb andb].
  unfold cover_settled.
  destruct Hcov as [->|(ext & _ & ->)]; reflexivity.
Qed.

Lemma load_library_writable uuid4 container_repr
    (uuid4_long : forall n, Nat.leb 10 (String.length (uuid4 n)) = true)
    w data w1 :
  load_library uuid4 container_repr w = (Returns data, w1) ->
  library_writable w1 = library_writable w.
Proof.
  intros Hl.
  destruct (load_library_outcome uuid4 container_repr uuid4_long w data w1 Hl)
    as (top & songs & _ & _ & _ & _ & [->|(w0 & Hd & ->)]); [reflexivity|].
  destruct Hd as (_ & Hwr & _).
  destruct (library_writable w); cbn; exact Hwr.
Qed.

Lemma dict_values_In (d : dict) k v : dict_get d k = Some v -> In v (dict_values d).
Proof.
  intros H. apply dict_get_In in H. unfold dict_values.
  apply in_map_iff. exists (k, v). split; [reflexivity|exact H].
Qed.

Section UploadMore.

Variable uuid4 : nat -> string.
Variable container_repr : pyval -> string.
Variable MUTAGEN_AVAILABLE : bool.
Variable EasyID3 : string -> easy_result.
Variable MP3 : string -> mp3_result.
Variable secure_filename : string -> string.
Variable error_text : upload_failure -> string.
Hypothesis uuid4_long : forall n, Nat.leb 10 (String.length (uuid4 n)) = true.


(** X16. An upload that passes validation, finds a free name, stores the
    audio and loads the catalog, with [library.json] writable, is answered
    201 with the resolved record, and [get_songs] lists that record
    afterwards. *)
Theorem upload_stores_and_lists_song :
  forall req mp3_file w filename w1 data w4,
    req_file req = Some mp3_file ->
    fails_validation req = false ->
    unique_name (S (length (files w) + length (dirs w))) w
      (fst (splitext (secure_filename (fs_filename mp3_file))))
      (snd (splitext (secure_filename (fs_filename mp3_file))))
      (secure_filename (fs_filename mp3_file)) 1 = Some filename ->
    write_file w (path_join (Path UPLOAD_FOLDER) filename) (fs_bytes mp3_file)
      = Some w1 ->
    load_library uuid4 container_repr (snd (resolved_upload uuid4 MUTAGEN_AVAILABLE EasyID3 MP3 req filename w1))
      = (Returns data, w4) ->
    library_writable w = true ->
    exists w5 listed,
      upload_file uuid4 container_repr MUTAGEN_AVAILABLE EasyID3 MP3
                  secure_filename error_text req w
      = Some (Returns (uploaded_body filename
                         (fst (resolved_upload uuid4 MUTAGEN_AVAILABLE EasyID3 MP3 req filename w1)), 201), w5) /\
      get_songs uuid4 container_repr w5 = (Returns (PList listed, 200), w5) /\
      In (PDict (metadata_dict (fst (resolved_upload uuid4 MUTAGEN_AVAILABLE EasyID3 MP3 req filename w1)))) listed.
Proof.
  intros req mp3_file w filename w1 data w4 Hreq Hval Hname Hwrite Hload Hw.
  unfold fails_validation in Hval. rewrite Hreq in Hval.
  apply orb_false_elim in Hval as [Hval Hcover].
  apply orb_false_elim in Hval as [Hempty Hallowed].
  pose proof (get_song_metadata_library MUTAGEN_AVAILABLE EasyID3 MP3 filename
                (uuid4 (uuid_count w1))
                (given (Some (Str.strip match req_artistName req with
                                        | Some a => a
                                        | None => EmptyString
                                        end)))
                (req_coverFile req) (bump_uuid w1)) as [Hlib Hid].
  pose proof (resolver_srcs MUTAGEN_AVAILABLE EasyID3 MP3 filename
                (uuid4 (uuid_count w1))
                (given (Some (Str.strip match req_artistName req with
                                        | Some a => a
                                        | None => EmptyString
                                        end)))
                (req_coverFile req) (bump_uuid w1)) as [_ Hcov].
  fold (resolved_upload uuid4 MUTAGEN_AVAILABLE EasyID3 MP3 req filename w1) in Hlib, Hid, Hcov.
  destruct (load_library_outcome uuid4 container_repr uuid4_long _ data w4 Hload)
    as (top & songs & -> & Hs & Hst & Hnd & _).
  pose proof (load_library_writable uuid4 container_repr uuid4_long _ _ _ Hload)
    as Hw4.
  assert (Hw4' : library_writable w4 = true).
  { rewrite Hw4. destruct Hlib as (_ & -> & _). cbn.
    apply write_file_library in Hwrite. destruct Hwrite as (_ & -> & _).
    exact Hw. }
  set (m := fst (resolved_upload uuid4 MUTAGEN_AVAILABLE EasyID3 MP3 req filename w1)) in *.
  set (song_id := uuid4 (uuid_count w1)) in *.
  set (songs' := dict_set songs song_id (PDict (metadata_dict m))).
  set (top' := dict_set top "songs" (PDict songs')).
  assert (Hst' : Forall steady_pair songs').
  { apply dict_set_pairs; [exact Hst|].
    apply resolver_record_steady; [exact Hid|apply uuid4_long|exact Hcov]. }
  assert (Hnd' : NoDup (dict_keys songs'))
    by (apply dict_set_keys_nodup; exact Hnd).
  assert (Hs' : dict_get top' "songs" = Some (PDict songs'))
    by apply dict_get_set_eq.
  exists (write_library w4 (PDict top')), (dict_values songs').
  split; [|split].
  - unfold upload_file. rewrite Hreq, Hempty.
    apply negb_false_iff in Hallowed. rewrite Hallowed. cbn [negb].
    assert (Hproc : process_upload uuid4 container_repr MUTAGEN_AVAILABLE
                      EasyID3 MP3 secure_filename error_text mp3_file
                      (Str.strip match req_artistName req with
                                 | Some a => a
                                 | None => EmptyString
                                 end) (req_coverFile req) w
                    = Some (Returns (uploaded_body filename m, 201),
                            write_library w4 (PDict top'))).
    { unfold process_upload.
      destruct (splitext (secure_filename (fs_filename mp3_file))) as [base ext].
      cbn [fst snd] in Hname. rewrite Hname, Hwrite.
      fold song_id.
      change (get_song_metadata MUTAGEN_AVAILABLE EasyID3 MP3 filename song_id _
                (req_coverFile req) (bump_uuid w1))
        with (resolved_upload uuid4 MUTAGEN_AVAILABLE EasyID3 MP3 req filename w1).
      destruct (resolved_upload uuid4 MUTAGEN_AVAILABLE EasyID3 MP3 req filename w1) as [m0 w3] eqn:Er.
      cbn [fst snd] in *. subst m. rewrite Hload.
      cbn [py_getitem]. rewrite Hs. cbn [obind py_setitem].
      fold songs'. fold top'.
      rewrite (save_library_steady top' songs' w4 Hs'
                 (steady_songs_Forall _ Hst') Hnd').
      rewrite Hw4'. reflexivity. }
    destruct (req_coverFile req) as [c|] eqn:Ec; [|exact Hproc].
    rewrite Hcover. exact Hproc.
  - unfold get_songs, bind, lift, ret.
    rewrite (load_library_steady uuid4 container_repr
               (write_library w4 (PDict top')) top' songs'
               eq_refl Hs' (steady_songs_Forall _ Hst') Hnd').
    cbn [py_get]. rewrite Hs'. reflexivity.
  - eapply dict_values_In. subst songs'. apply dict_get_set_eq.
Qed.

End UploadMore.

Lemma same_tree_refl w : same_tree w w.
Proof. repeat split. Qed.

Lemma same_tree_trans w1 w2 w3 :
  same_tree w1 w2 -> same_tree w2 w3 -> same_tree w1 w3.
Proof.
  unfold same_tree. intros (A & B & C) (A' & B' & C'). repeat split; congruence.
Qed.

Lemma same_media_tree w w' : same_media w w' -> same_tree w w'.
Proof. unfold same_media, same_tree. intros (A & B & C & D). auto. Qed.

Lemma walk_same w w' : dirs w' = dirs w ->
  forall cs cur, walk w' cur cs = walk w cur cs.
Proof.
  intros Hd. induction cs as [|c cs IH]; intros cur; [reflexivity|].
  cbn [walk]. unfold is_dir. rewrite Hd. destruct cur; rewrite IH; reflexivity.
Qed.

Lemma locate_same w w' p : same_tree w w' -> locate w' p = locate w p.
Proof.
  intros (Hc & Hd & _). unfold locate, start_of. rewrite Hc.
  apply walk_same. exact Hd.
Qed.

Lemma write_file_tree w p bytes w' :
  write_file w p bytes = Some w' -> same_tree w w'.
Proof.
  unfold write_file. destruct (locate w p); [|discriminate].
  destruct (_ && _); [|discriminate]. intros [= <-]. repeat split.
Qed.

Lemma os_remove_tree w p w' : os_remove w p = Some w' -> same_tree w w'.
Proof.
  unfold os_remove. destruct (locate w p); [|discriminate].
  destruct (_ && _); [|discriminate]. intros [= <-]. repeat split.
Qed.

Lemma scan_tags_tree tags : forall song_id w,
  same_tree w (snd (scan_tags tags song_id w)).
Proof.
  induction tags as [|[name fr] tags IH]; intros song_id w;
    [apply same_tree_refl|].
  cbn [scan_tags]. destruct (Str.startswith name "APIC"); [|apply IH].
  destruct (Str.mem _ _); [|apply IH].
  destruct (write_file w _ (data fr)) eqn:E; [|apply same_tree_refl].
  cbn [snd]. eapply write_file_tree; exact E.
Qed.

Lemma get_song_metadata_tree MUT EasyID3 MP3 mp3 song_id manual cover w :
  same_tree w (snd (get_song_metadata MUT EasyID3 MP3 mp3 song_id manual cover w)).
Proof.
  unfold get_song_metadata.
  assert (Hc : same_tree w
            (snd (save_uploaded_cover song_id cover (seed_metadata mp3 song_id) w))).
  { unfold save_uploaded_cover. destruct cover as [f|]; [|apply same_tree_refl].
    destruct (_ && _); [|apply same_tree_refl].
    destruct (write_file w _ (fs_bytes f)) eqn:E; [|apply same_tree_refl].
    eapply write_file_tree; exact E. }
  destruct (save_uploaded_cover song_id cover (seed_metadata mp3 song_id) w)
    as [[m1 cover_saved] w1]. cbn [snd] in Hc.
  destruct (MUT && path_is_file w1 _).
  - destruct cover_saved; cbn [negb]; [exact Hc|].
    destruct (open_mp3 MP3 w1 _) as [|tags]; [exact Hc|].
    pose proof (scan_tags_tree tags song_id w1) as Hs.
    destruct (scan_tags tags song_id w1) as [[c|] w2]; cbn [snd] in Hs |- *;
      eapply same_tree_trans; eassumption.
  - destruct (negb MUT); exact Hc.
Qed.

Lemma drop_file_absent q fs :
  existsb (fun f => path_eqb q (fst f)) (drop_file q fs) = false.
Proof.
  unfold drop_file. induction fs as [|f fs IH]; [reflexivity|].
  cbn [filter]. destruct (path_eqb q (fst f)) eqn:E; cbn [negb]; [exact IH|].
  cbn [existsb]. rewrite E, IH. reflexivity.
Qed.

Lemma drop_file_sub q q' fs :
  existsb (fun f => path_eqb q (fst f)) fs = false ->
  existsb (fun f => path_eqb q (fst f)) (drop_file q' fs) = false.
Proof.
  unfold drop_file. induction fs as [|f fs IH]; [reflexivity|].
  cbn [existsb filter]. intros H. apply orb_false_elim in H as [Hf Hr].
  destruct (negb (path_eqb q' (fst f))); [|apply IH; exact Hr].
  cbn [existsb]. rewrite Hf. apply IH. exact Hr.
Qed.

Lemma os_remove_keeps_absent w p' w' p :
  os_remove w p' = Some w' ->
  path_is_file w p = false -> path_is_file w' p = false.
Proof.
  intros Hr Hp. pose proof (os_remove_tree _ _ _ Hr) as Ht.
  unfold path_is_file in *. rewrite (locate_same w w' p Ht).
  destruct (locate w p) as [q|]; [|reflexivity].
  unfold os_remove in Hr. destruct (locate w p') as [q'|]; [|discriminate].
  destruct (_ && _); [|discriminate]. injection Hr as <-.
  unfold is_regular in *. cbn [files set_files]. apply drop_file_sub. exact Hp.
Qed.

(** After the rollback the audio path of the upload is no file, provided
    the file there, if there is one, is not locked. *)
Lemma rollback_clears_audio error_text cause p metadata w :
  (forall q, locate w p = Some q -> is_regular w q = true ->
             existsb (path_eqb q) (locked w) = false) ->
  path_is_file (snd (rollback error_text cause p metadata w)) p = false.
Proof.
  intros Hfree. unfold rollback. cbn [snd].
  set (w1 := if path_exists w p
             then match os_remove w p with Some w' => w' | None => w end
             else w).
  assert (H1 : path_is_file w1 p = false).
  { subst w1. unfold path_exists, path_is_file, os_remove.
    destruct (locate w p) as [q|] eqn:El.
    2: { unfold path_is_file. rewrite El. reflexivity. }
    destruct (is_regular w q) eqn:Er.
    - cbn [orb andb]. rewrite (Hfree q eq_refl Er). cbn [negb].
      unfold path_is_file.
      rewrite (locate_same w (set_files w (drop_file q (files w))) p)
        by (repeat split).
      rewrite El. unfold is_regular. cbn [files set_files].
      apply drop_file_absent.
    - cbn [orb andb].
      destruct (is_dir w q); unfold path_is_file; rewrite El; exact Er. }
  clearbody w1.
  destruct metadata as [m|]; [|exact H1].
  destruct (given (md_coverSrc m)) as [c|]; [|exact H1].
  destruct (Str.startswith _ _); [|exact H1].
  destruct (_ && _); [|exact H1].
  destruct (os_remove w1 _) as [w2|] eqn:E; [|exact H1].
  eapply os_remove_keeps_absent; eassumption.
Qed.

Lemma write_file_unlocked w p bytes w1 wr q :
  write_file w p bytes = Some w1 ->
  same_tree w wr ->
  locate wr p = Some q ->
  existsb (path_eqb q) (locked wr) = false.
Proof.
  intros Hw Ht Hl. rewrite (locate_same w wr p Ht) in Hl.
  destruct Ht as (_ & _ & ->).
  unfold write_file in Hw. rewrite Hl in Hw.
  destruct (existsb (path_eqb q) (locked w)); [|reflexivity].
  rewrite andb_false_r in Hw. discriminate.
Qed.


Section UploadRollback.

Variable uuid4 : nat -> string.
Variable container_repr : pyval -> string.
Variable MUTAGEN_AVAILABLE : bool.
Variable EasyID3 : string -> easy_result.
Variable MP3 : string -> mp3_result.
Variable secure_filename : string -> string.
Variable error_text : upload_failure -> string.

Lemma process_upload_failure mp3_file manual cover w filename body w' :
  unique_name (S (length (files w) + length (dirs w))) w
    (fst (splitext (secure_filename (fs_filename mp3_file))))
    (snd (splitext (secure_filename (fs_filename mp3_file))))
    (secure_filename (fs_filename mp3_file)) 1 = Some filename ->
  process_upload uuid4 container_repr MUTAGEN_AVAILABLE EasyID3 MP3
    secure_filename error_text mp3_file manual cover w
  = Some (Returns (body, 500), w') ->
  path_is_file w' (path_join (Path UPLOAD_FOLDER) filename) = false.
Proof.
  intros Hname. unfold process_upload.
  destruct (splitext (secure_filename (fs_filename mp3_file))) as [base ext].
  cbn [fst snd] in Hname. rewrite Hname.
  set (p := path_join (Path UPLOAD_FOLDER) filename).
  assert (Hroll : forall cause md wr,
            (forall q, locate wr p = Some q -> is_regular wr q = true ->
                       existsb (path_eqb q) (locked wr) = false) ->
            Some (rollback error_text cause p md wr) = Some (Returns (body, 500), w') ->
            path_is_file w' p = false).
  { intros cause md wr Hfree H.
    apply (f_equal (fun o => match o with
                             | Some r => snd r
                             | None => w'
                             end)) in H.
    cbn beta iota in H. change (snd (Returns (body, 500), w')) with w' in H.
    rewrite <- H. apply rollback_clears_audio. exact Hfree. }
  destruct (write_file w p (fs_bytes mp3_file)) as [w1|] eqn:Hwrite.
  2: { apply Hroll. intros q Hq Hr.
       pose proof (unique_name_free _ _ _ _ _ _ _ Hname) as Hfree.
       unfold in_uploads in Hfree. fold p in Hfree.
       unfold path_exists in Hfree. rewrite Hq, Hr in Hfree. discriminate. }
  assert (Hunlocked : forall wr, same_tree w wr ->
            forall q, locate wr p = Some q -> is_regular wr q = true ->
                      existsb (path_eqb q) (locked wr) = false).
  { intros wr Ht q Hq _. eapply write_file_unlocked; eassumption. }
  pose proof (write_file_tree _ _ _ _ Hwrite) as Ht1.
  pose proof (get_song_metadata_tree MUTAGEN_AVAILABLE EasyID3 MP3 filename
                (uuid4 (uuid_count w1)) (given (Some manual)) cover
                (bump_uuid w1)) as Ht3.
  destruct (get_song_metadata MUTAGEN_AVAILABLE EasyID3 MP3 filename
              (uuid4 (uuid_count w1)) (given (Some manual)) cover
              (bump_uuid w1)) as [m w3]. cbn [snd] in Ht3.
  assert (Ht3' : same_tree w w3).
  { eapply same_tree_trans; [exact Ht1|].
    eapply same_tree_trans; [|exact Ht3]. repeat split. }
  pose proof (load_library_media uuid4 container_repr w3) as Ht4.
  apply same_media_tree in Ht4.
  destruct (load_library uuid4 container_repr w3) as [[data|e] w4];
    cbn [snd] in Ht4.
  2: { apply Hroll, Hunlocked. eapply same_tree_trans; eassumption. }
  assert (Ht4' : same_tree w w4) by (eapply same_tree_trans; eassumption).
  match goal with
  | |- Some (match ?c with _ => _ end) = _ -> _ => destruct c as [data'|e]
  end.
  2: { apply Hroll, Hunlocked. exact Ht4'. }
  pose proof (save_library_media data' w4) as Ht5. apply same_media_tree in Ht5.
  destruct (save_library data' w4) as [[[[|] d]|e] w5]; cbn [snd] in Ht5.
  - discriminate.
  - apply Hroll, Hunlocked. eapply same_tree_trans; eassumption.
  - apply Hroll, Hunlocked. eapply same_tree_trans; eassumption.
Qed.

(** X17. Whenever [upload_file] answers 500, the name it had chosen for
    the audio is no file in the upload directory afterwards. *)
Theorem failed_upload_leaves_no_audio :
  forall req mp3_file w filename body w',
    req_file req = Some mp3_file ->
    unique_name (S (length (files w) + length (dirs w))) w
      (fst (splitext (secure_filename (fs_filename mp3_file))))
      (snd (splitext (secure_filename (fs_filename mp3_file))))
      (secure_filename (fs_filename mp3_file)) 1 = Some filename ->
    upload_file uuid4 container_repr MUTAGEN_AVAILABLE EasyID3 MP3
                secure_filename error_text req w
    = Some (Returns (body, 500), w') ->
    path_is_file w' (path_join (Path UPLOAD_FOLDER) filename) = false.
Proof.
  intros req mp3_file w filename body w' Hreq Hname.
  unfold upload_file. rewrite Hreq.
  destruct (String.eqb (fs_filename mp3_file) EmptyString); [discriminate|].
  destruct (negb (allowed_file (fs_filename mp3_file))); [discriminate|].
  destruct (req_coverFile req) as [c|];
    [destruct (_ && _); [discriminate|]|];
    apply process_upload_failure; exact Hname.
Qed.

End UploadRollback.

Lemma prefix_nil s : String.prefix EmptyString s = true.
Proof. destruct s; reflexivity. Qed.

Lemma prefix_app (a b c : string) :
  String.prefix (a ++ b) (a ++ c) = String.prefix b c.
Proof.
  induction a as [|x a IH]; [reflexivity|].
  cbn [append String.prefix]. destruct (ascii_dec x x); [exact IH|contradiction].
Qed.

Lemma within_join_rooted root : forall p,
  within root p = true ->
  String.prefix (Str.join_rooted root) (Str.join_rooted p) = true.
Proof.
  induction root as [|r root IH]; intros p H; [apply prefix_nil|].
  destruct p as [|a p]; [discriminate|]. cbn [within] in H.
  apply andb_prop in H as [Hr Hw]. apply String.eqb_eq in Hr. subst a.
  cbn [Str.join_rooted]. rewrite prefix_app, prefix_app. apply IH. exact Hw.
Qed.

(** A path inside a folder passes the check the handler makes on the two
    texts. *)
Lemma within_passes_check root p :
  within root p = true ->
  Str.startswith (path_text p) (path_text root) = true.
Proof.
  intros H. unfold Str.startswith, path_text.
  destruct root as [|r root].
  - destruct p as [|a p]; [reflexivity|]. cbn [Str.join_rooted].
    change "/" with ("/" ++ EmptyString) at 1.
    rewrite prefix_app. apply prefix_nil.
  - destruct p as [|a p]; [discriminate|]. apply within_join_rooted. exact H.
Qed.

Lemma walk_resolve w : forall cs cur q,
  walk w cur cs = Some q -> fold_left step cs cur = q.
Proof.
  induction cs as [|c cs IH]; intros cur q; cbn [walk fold_left].
  - intros [= <-]. reflexivity.
  - destruct (is_dir w cur); [apply IH|discriminate].
Qed.

(** X18. An audio file that is within the upload directory and not
    locked passes the check of the audio slot and is removed. *)
Theorem delete_audio_removes_file_inside :
  forall f w,
    f <> EmptyString ->
    path_is_file w (in_uploads f) = true ->
    within (resolve w (Path UPLOAD_FOLDER)) (resolve w (in_uploads f)) = true ->
    existsb (path_eqb (resolve w (in_uploads f))) (locked w) = false ->
    delete_audio (PStr f) w
    = (Returns true,
       set_files w (drop_file (resolve w (in_uploads f)) (files w))) /\
    path_is_file
      (set_files w (drop_file (resolve w (in_uploads f)) (files w)))
      (in_uploads f) = false.
Proof.
  intros f w Hf Hfile Hin Hlock.
  assert (Hloc : locate w (in_uploads f) = Some (resolve w (in_uploads f)) /\
                 is_regular w (resolve w (in_uploads f)) = true).
  { unfold path_is_file in Hfile.
    destruct (locate w (in_uploads f)) as [q|] eqn:El; [|discriminate].
    unfold locate in El. apply walk_resolve in El. unfold resolve.
    rewrite El. auto. }
  destruct Hloc as [Hloc Hreg]. split.
  - unfold delete_audio. cbn [truthy].
    destruct (String.eqb f EmptyString) eqn:E;
      [apply String.eqb_eq in E; contradiction|].
    cbn [negb]. fold (in_uploads f). rewrite Hfile.
    unfold path_exists. rewrite Hloc, Hreg. cbn [orb andb].
    rewrite (within_passes_check _ _ Hin).
    unfold os_remove. rewrite Hloc, Hreg, Hlock. reflexivity.
  - unfold path_is_file.
    rewrite (locate_same w _ (in_uploads f)) by (repeat split).
    rewrite Hloc. unfold is_regular. cbn [files set_files].
    apply drop_file_absent.
Qed.

(** ** The further properties at concrete inputs *)

Lemma example_uuid4_long :
  forall n, Nat.leb 10 (String.length (Ex.uuid4 n)) = true.
Proof. intros n. reflexivity. Defined.

Lemma extension_decides_allowed_witness :
  Str.contains_char "." "MP3" = false /\
  allowed_file ("take.one" ++ "." ++ "MP3")
    = Str.mem (Str.lower "MP3") ALLOWED_EXTENSIONS /\
  allowed_cover_file ("take.one" ++ "." ++ "MP3")
    = Str.mem (Str.lower "MP3") ALLOWED_COVER_EXTENSIONS.
Proof.
  split; [reflexivity|].
  apply (extension_decides_allowed "take.one" "MP3"). reflexivity.
Defined.

Lemma unique_name_is_free_witness :
  unique_name 3 More.crowded_world "s" ".mp3" "s.mp3" 1 = Some "s_2.mp3" /\
  path_exists More.crowded_world (in_uploads "s_2.mp3") = false.
Proof.
  split; [reflexivity|].
  apply (unique_name_is_free 3 More.crowded_world "s" ".mp3" "s.mp3" 1 "s_2.mp3").
  reflexivity.
Defined.

Lemma unique_name_takes_first_free_suffix_witness :
  1 <= 1 /\
  path_exists More.crowded_world (in_uploads "s.mp3") = true /\
  (forall j, j < 1 ->
     path_exists More.crowded_world
       (in_uploads (candidate "s" ".mp3" (1 + j))) = true) /\
  path_exists More.crowded_world (in_uploads (candidate "s" ".mp3" (1 + 1)))
    = false /\
  unique_name 2 More.crowded_world "s" ".mp3" "s.mp3" 1
    = Some (candidate "s" ".mp3" (1 + 1)).
Proof.
  assert (Hbusy : forall j, j < 1 ->
            path_exists More.crowded_world
              (in_uploads (candidate "s" ".mp3" (1 + j))) = true).
  { intros j Hj. assert (j = 0) as -> by lia. reflexivity. }
  split; [lia|]. split; [reflexivity|]. split; [exact Hbusy|].
  split; [reflexivity|].
  apply (unique_name_takes_first_free_suffix More.crowded_world "s" ".mp3"
           "s.mp3" 1 1); [lia|reflexivity|exact Hbusy|reflexivity].
Defined.


Lemma save_library_unwritable_changes_nothing_witness :
  library_writable (More.readonly Ex.tidy_world) = false /\
  snd (save_library (PDict Ex.tidy_top) (More.readonly Ex.tidy_world))
    = More.readonly Ex.tidy_world /\
  forall d,
    fst (save_library (PDict Ex.tidy_top) (More.readonly Ex.tidy_world))
    <> Returns (true, d).
Proof.
  split; [reflexivity|].
  apply (save_library_unwritable_changes_nothing (PDict Ex.tidy_top)
           (More.readonly Ex.tidy_world)). reflexivity.
Defined.

Lemma save_library_raises_when_songs_is_no_dict_witness :
  dict_get [("songs", PList [])] "songs" = Some (PList []) /\
  is_dict (PList []) = false /\
  save_library (PDict [("songs", PList [])]) Ex.tidy_world
  = (Raises AttributeError, Ex.tidy_world).
Proof.
  split; [reflexivity|]. split; [reflexivity|].
  apply (save_library_raises_when_songs_is_no_dict
           [("songs", PList [])] (PList []) Ex.tidy_world); reflexivity.
Defined.

Lemma legacy_load :
  load_library Ex.uuid4 Ex.container_repr Ex.legacy_world
  = (Returns Ex.legacy_loaded, Ex.legacy_after).
Proof. vm_compute. reflexivity. Defined.

Lemma load_library_twice_witness :
  (forall n, Nat.leb 10 (String.length (Ex.uuid4 n)) = true) /\
  library_writable Ex.legacy_world = true /\
  load_library Ex.uuid4 Ex.container_repr Ex.legacy_world
  = (Returns Ex.legacy_loaded, Ex.legacy_after) /\
  load_library Ex.uuid4 Ex.container_repr Ex.legacy_after
  = (Returns Ex.legacy_loaded, Ex.legacy_after).
Proof.
  split; [exact example_uuid4_long|]. split; [reflexivity|].
  split; [exact legacy_load|].
  apply (load_library_twice Ex.uuid4 Ex.container_repr example_uuid4_long
           Ex.legacy_world Ex.legacy_loaded Ex.legacy_after eq_refl legacy_load).
Defined.

Lemma load_library_files_records_by_id_witness :
  (forall n, Nat.leb 10 (String.length (Ex.uuid4 n)) = true) /\
  load_library Ex.uuid4 Ex.container_repr Ex.legacy_world
  = (Returns Ex.legacy_loaded, Ex.legacy_after) /\
  catalog_songs Ex.legacy_loaded = Some Ex.legacy_songs /\
  NoDup (dict_keys Ex.legacy_songs) /\
  forall key v, In (key, v) Ex.legacy_songs ->
    exists sd, v = PDict sd /\ dict_get sd "id" = Some (PStr key) /\
               10 <= String.length key.
Proof.
  split; [exact example_uuid4_long|]. split; [exact legacy_load|].
  split; [reflexivity|].
  apply (load_library_files_records_by_id Ex.uuid4 Ex.container_repr
           example_uuid4_long Ex.legacy_world Ex.legacy_loaded Ex.legacy_after
           Ex.legacy_songs legacy_load eq_refl).
Defined.

Lemma resolver_without_tags_witness :
  false
  && path_is_file
       (snd (save_uploaded_cover "ID" None (seed_metadata "s.mp3" "ID")
               Ex.audio_world))
       (path_join (Path UPLOAD_FOLDER) "s.mp3") = false /\
  get_song_metadata false Ex.EasyID3 Ex.MP3 "s.mp3" "ID" None None
    Ex.audio_world
  = (with_artist
       (fst (fst (save_uploaded_cover "ID" None (seed_metadata "s.mp3" "ID")
                    Ex.audio_world)))
       (manual_or None (missing_artist false)),
     snd (save_uploaded_cover "ID" None (seed_metadata "s.mp3" "ID")
            Ex.audio_world)).
Proof.
  split; [reflexivity|].
  apply (resolver_without_tags false Ex.EasyID3 Ex.MP3 "s.mp3" "ID" None None
           Ex.audio_world). reflexivity.
Defined.

Lemma uploaded_cover_wins_witness :
  fs_filename More.cover <> EmptyString /\
  allowed_cover_file (fs_filename More.cover) = true /\
  write_file Ex.audio_world
    (path_join (Path COVERS_FOLDER)
       ("ID" ++ "." ++ Str.lower (Str.after_last "." (fs_filename More.cover))))
    (fs_bytes More.cover) = Some More.with_cover /\
  md_coverSrc (fst (get_song_metadata true Ex.EasyID3 Ex.MP3 "s.mp3" "ID"
                      None (Some More.cover) Ex.audio_world))
  = Some ("/covers/" ++ "ID" ++ "."
          ++ Str.lower (Str.after_last "." (fs_filename More.cover))) /\
  snd (get_song_metadata true Ex.EasyID3 Ex.MP3 "s.mp3" "ID"
         None (Some More.cover) Ex.audio_world)
  = More.with_cover.
Proof.
  assert (H1 : fs_filename More.cover <> EmptyString) by discriminate.
  split; [exact H1|]. split; [reflexivity|]. split; [reflexivity|].
  apply (uploaded_cover_wins true Ex.EasyID3 Ex.MP3 "s.mp3" "ID" None
           More.cover Ex.audio_world More.with_cover H1); reflexivity.
Defined.

Lemma locked_load :
  load_library Ex.uuid4 Ex.container_repr More.locked_world
  = (Returns (PDict Ex.tidy_top), More.locked_world).
Proof. vm_compute. reflexivity. Defined.

Lemma failed_removal_keeps_catalog_witness :
  load_library Ex.uuid4 Ex.container_repr More.locked_world
  = (Returns (PDict Ex.tidy_top), More.locked_world) /\
  dict_get Ex.tidy_top "songs" = Some (PDict Ex.tidy_songs) /\
  dict_get Ex.tidy_songs "0b1e5a4c-aaaa" = Some (PDict More.tidy_a) /\
  delete_audio (field More.tidy_a "filename") More.locked_world
  = (Returns false, More.locked_world) /\
  delete_cover (field More.tidy_a "coverSrc") More.locked_world
  = (Returns true, More.locked_world) /\
  false && true = false /\
  delete_song Ex.uuid4 Ex.container_repr "0b1e5a4c-aaaa" More.locked_world
  = (Returns (error_body (deletion_error false true), 500), More.locked_world) /\
  same_library More.locked_world More.locked_world.
Proof.
  split; [exact locked_load|]. split; [reflexivity|]. split; [reflexivity|].
  split; [reflexivity|]. split; [reflexivity|]. split; [reflexivity|].
  apply (failed_removal_keeps_catalog Ex.uuid4 Ex.container_repr
           More.locked_world "0b1e5a4c-aaaa" Ex.tidy_top Ex.tidy_songs
           More.tidy_a More.locked_world false More.locked_world true
           More.locked_world locked_load);
    reflexivity.
Defined.

Lemma tidy_delete :
  delete_song Ex.uuid4 Ex.container_repr "0b1e5a4c-bbbb" Ex.tidy_world
  = (Returns (deleted_body Ex.container_repr Ex.tidy_b "0b1e5a4c-bbbb", 200),
     Ex.tidy_after_delete).
Proof. vm_compute. reflexivity. Defined.

Lemma tidy_load :
  load_library Ex.uuid4 Ex.container_repr Ex.tidy_world
  = (Returns (PDict Ex.tidy_top), Ex.tidy_world).
Proof. vm_compute. reflexivity. Defined.

Lemma second_delete_finds_nothing_witness :
  (forall n, Nat.leb 10 (String.length (Ex.uuid4 n)) = true) /\
  delete_song Ex.uuid4 Ex.container_repr "0b1e5a4c-bbbb" Ex.tidy_world
  = (Returns (deleted_body Ex.container_repr Ex.tidy_b "0b1e5a4c-bbbb", 200),
     Ex.tidy_after_delete) /\
  delete_song Ex.uuid4 Ex.container_repr "0b1e5a4c-bbbb" Ex.tidy_after_delete
  = (Returns (error_body "Song not found", 404), Ex.tidy_after_delete).
Proof.
  split; [exact example_uuid4_long|]. split; [exact tidy_delete|].
  apply (second_delete_finds_nothing Ex.uuid4 Ex.container_repr
           example_uuid4_long Ex.tidy_world "0b1e5a4c-bbbb" _ _ tidy_delete).
Defined.

Lemma list_after_delete_witness :
  (forall n, Nat.leb 10 (String.length (Ex.uuid4 n)) = true) /\
  delete_song Ex.uuid4 Ex.container_repr "0b1e5a4c-bbbb" Ex.tidy_world
  = (Returns (deleted_body Ex.container_repr Ex.tidy_b "0b1e5a4c-bbbb", 200),
     Ex.tidy_after_delete) /\
  load_library Ex.uuid4 Ex.container_repr Ex.tidy_world
  = (Returns (PDict Ex.tidy_top), Ex.tidy_world) /\
  catalog_songs (PDict Ex.tidy_top) = Some Ex.tidy_songs /\
  get_songs Ex.uuid4 Ex.container_repr Ex.tidy_after_delete
  = (Returns (PList (dict_values (dict_del Ex.tidy_songs "0b1e5a4c-bbbb")), 200),
     Ex.tidy_after_delete).
Proof.
  split; [exact example_uuid4_long|]. split; [exact tidy_delete|].
  split; [exact tidy_load|]. split; [reflexivity|].
  apply (list_after_delete Ex.uuid4 Ex.container_repr example_uuid4_long
           Ex.tidy_world "0b1e5a4c-bbbb" _ _ _ _ Ex.tidy_songs
           tidy_delete tidy_load eq_refl).
Defined.

Lemma bare_load :
  load_library Ex.uuid4 Ex.container_repr More.bare_world
  = (Returns (PDict Ex.tidy_top), More.bare_world).
Proof. vm_compute. reflexivity. Defined.

Lemma delete_with_missing_audio_witness :
  (forall n, Nat.leb 10 (String.length (Ex.uuid4 n)) = true) /\
  library_writable More.bare_world = true /\
  load_library Ex.uuid4 Ex.container_repr More.bare_world
  = (Returns (PDict Ex.tidy_top), More.bare_world) /\
  catalog_songs (PDict Ex.tidy_top) = Some Ex.tidy_songs /\
  dict_get Ex.tidy_songs "0b1e5a4c-aaaa" = Some (PDict More.tidy_a) /\
  dict_get More.tidy_a "filename" = Some (PStr "a.mp3") /\
  path_is_file More.bare_world (path_join (Path UPLOAD_FOLDER) "a.mp3") = false /\
  truthy (field More.tidy_a "coverSrc") = false /\
  exists w',
    delete_song Ex.uuid4 Ex.container_repr "0b1e5a4c-aaaa" More.bare_world
    = (Returns (deleted_body Ex.container_repr More.tidy_a "0b1e5a4c-aaaa", 200),
       w') /\
    files w' = files More.bare_world /\
    known_song Ex.uuid4 Ex.container_repr w' "0b1e5a4c-aaaa" = false.
Proof.
  split; [exact example_uuid4_long|]. split; [reflexivity|].
  split; [exact bare_load|]. split; [reflexivity|]. split; [reflexivity|].
  split; [reflexivity|]. split; [reflexivity|]. split; [reflexivity|].
  apply (delete_with_missing_audio Ex.uuid4 Ex.container_repr
           example_uuid4_long More.bare_world "0b1e5a4c-aaaa"
           (PDict Ex.tidy_top) More.bare_world Ex.tidy_songs More.tidy_a
           "a.mp3" eq_refl bare_load); reflexivity.
Defined.

Lemma good_upload_load :
  load_library Ex.uuid4 Ex.container_repr
    (snd (resolved_upload Ex.uuid4 true Ex.EasyID3 Ex.MP3 More.good_upload
            "s_1.mp3" More.stored))
  = (Returns empty_library, snd More.resolved).
Proof. vm_compute. reflexivity. Defined.

Lemma upload_stores_and_lists_song_witness :
  (forall n, Nat.leb 10 (String.length (Ex.uuid4 n)) = true) /\
  req_file More.good_upload = Some More.audio /\
  fails_validation More.good_upload = false /\
  unique_name (S (length (files Ex.audio_world) + length (dirs Ex.audio_world)))
    Ex.audio_world
    (fst (splitext (Ex.secure_filename (fs_filename More.audio))))
    (snd (splitext (Ex.secure_filename (fs_filename More.audio))))
    (Ex.secure_filename (fs_filename More.audio)) 1 = Some "s_1.mp3" /\
  write_file Ex.audio_world (path_join (Path UPLOAD_FOLDER) "s_1.mp3")
    (fs_bytes More.audio) = Some More.stored /\
  load_library Ex.uuid4 Ex.container_repr
    (snd (resolved_upload Ex.uuid4 true Ex.EasyID3 Ex.MP3 More.good_upload
            "s_1.mp3" More.stored))
  = (Returns empty_library, snd More.resolved) /\
  library_writable Ex.audio_world = true /\
  exists w5 listed,
    upload_file Ex.uuid4 Ex.container_repr true Ex.EasyID3 Ex.MP3
                Ex.secure_filename Ex.error_text More.good_upload Ex.audio_world
    = Some (Returns (uploaded_body "s_1.mp3"
                       (fst (resolved_upload Ex.uuid4 true Ex.EasyID3 Ex.MP3
                               More.good_upload "s_1.mp3" More.stored)), 201),
            w5) /\
    get_songs Ex.uuid4 Ex.container_repr w5 = (Returns (PList listed, 200), w5) /\
    In (PDict (metadata_dict
                 (fst (resolved_upload Ex.uuid4 true Ex.EasyID3 Ex.MP3
                         More.good_upload "s_1.mp3" More.stored)))) listed.
Proof.
  split; [exact example_uuid4_long|]. split; [reflexivity|].
  split; [reflexivity|]. split; [reflexivity|]. split; [reflexivity|].
  split; [exact good_upload_load|]. split; [reflexivity|].
  apply (upload_stores_and_lists_song Ex.uuid4 Ex.container_repr true
           Ex.EasyID3 Ex.MP3 Ex.secure_filename Ex.error_text
           example_uuid4_long More.good_upload More.audio Ex.audio_world
           "s_1.mp3" More.stored empty_library (snd More.resolved)
           eq_refl eq_refl eq_refl eq_refl good_upload_load eq_refl).
Defined.

Lemma failed_upload :
  upload_file Ex.uuid4 Ex.container_repr true Ex.EasyID3 Ex.MP3
              Ex.secure_filename Ex.error_text More.good_upload
              (More.readonly Ex.audio_world)
  = Some (Returns (error_body "Failed to process file: error", 500),
          snd More.failed_answer).
Proof. vm_compute. reflexivity. Defined.

Lemma failed_upload_leaves_no_audio_witness :
  req_file More.good_upload = Some More.audio /\
  unique_name
    (S (length (files (More.readonly Ex.audio_world))
        + length (dirs (More.readonly Ex.audio_world))))
    (More.readonly Ex.audio_world)
    (fst (splitext (Ex.secure_filename (fs_filename More.audio))))
    (snd (splitext (Ex.secure_filename (fs_filename More.audio))))
    (Ex.secure_filename (fs_filename More.audio)) 1 = Some "s_1.mp3" /\
  upload_file Ex.uuid4 Ex.container_repr true Ex.EasyID3 Ex.MP3
              Ex.secure_filename Ex.error_text More.good_upload
              (More.readonly Ex.audio_world)
  = Some (Returns (error_body "Failed to process file: error", 500),
          snd More.failed_answer) /\
  path_is_file (snd More.failed_answer)
    (path_join (Path UPLOAD_FOLDER) "s_1.mp3") = false.
Proof.
  split; [reflexivity|]. split; [reflexivity|]. split; [exact failed_upload|].
  apply (failed_upload_leaves_no_audio Ex.uuid4 Ex.container_repr true
           Ex.EasyID3 Ex.MP3 Ex.secure_filename Ex.error_text
           More.good_upload More.audio (More.readonly Ex.audio_world)
           "s_1.mp3" _ _ eq_refl eq_refl failed_upload).
Defined.

Lemma delete_audio_removes_file_inside_witness :
  "a.mp3" <> EmptyString /\
  path_is_file Ex.tidy_world (in_uploads "a.mp3") = true /\
  within (resolve Ex.tidy_world (Path UPLOAD_FOLDER))
         (resolve Ex.tidy_world (in_uploads "a.mp3")) = true /\
  existsb (path_eqb (resolve Ex.tidy_world (in_uploads "a.mp3")))
          (locked Ex.tidy_world) = false /\
  delete_audio (PStr "a.mp3") Ex.tidy_world
  = (Returns true,
     set_files Ex.tidy_world
       (drop_file (resolve Ex.tidy_world (in_uploads "a.mp3"))
          (files Ex.tidy_world))) /\
  path_is_file
    (set_files Ex.tidy_world
       (drop_file (resolve Ex.tidy_world (in_uploads "a.mp3"))
          (files Ex.tidy_world)))
    (in_uploads "a.mp3") = false.
Proof.
  assert (H1 : "a.mp3" <> EmptyString) by discriminate.
  split; [exact H1|]. split; [reflexivity|]. split; [reflexivity|].
  split; [reflexivity|].
  apply (delete_audio_removes_file_inside "a.mp3" Ex.tidy_world H1);
    reflexivity.
Defined.
